(** * json_datastore: a shallow embedding of [JsonDatastore]

    The store keeps one JSON file holding a mapping from type name to a
    mapping from document id to document.  Every method reloads the whole
    file, works on the in-memory value and, when it mutates, rewrites the
    whole file.

    Conventions of the embedding
    - Python values that can reach the store are JSON values ([json]):
      null, booleans, integers, text, sequences and text-keyed mappings.
      Floating point numbers are left out.
    - The backing file is described by what [open] and [json.loads] make of
      it: it is missing, it holds text that is not JSON, or it holds the
      JSON text of some value.  [json.loads (json.dumps v)] is taken to be
      [v] for every [json] value [v].
    - The wall clock and the random generator are part of the [world] that
      every method threads through: each clock reading hands out the current
      time and lets the clock move on.
    - Exceptions are values of [exn]; a method is a function from a world to
      an outcome and a world ([py]).
    - The arguments [type] and [id] are texts, as type names and document
      ids are in the file; [data] is any text-keyed mapping, so the value it
      carries under ['_id'] is any JSON value.
    - Failures of writing (full disk, permissions) are not modelled. *)

From Stdlib Require Import ZArith NArith Ascii String.
From stdpp Require Import gmap strings list fin_maps pretty.

#[local] Open Scope string_scope.
#[local] Set Warnings "-register-all".

(** ** hashlib.sha1 (FIPS 180-4) and [hexdigest] *)

Module Sha1.
#[local] Open Scope N_scope.

Definition state : Type := N * N * N * N * N.

Definition w32 (x : N) : N := x mod 2 ^ 32.
Definition add32 (x y : N) : N := w32 (x + y).
Definition not32 (x : N) : N := N.lxor (w32 x) (2 ^ 32 - 1).
Definition rotl (r x : N) : N :=
  w32 (N.lor (N.shiftl x r) (N.shiftr (w32 x) (32 - r))).

Definition bytes_of (s : string) : list N :=
  map N_of_ascii (list_ascii_of_string s).

(** The [width] low bytes of [x], most significant first. *)
Fixpoint be_bytes (width : nat) (x : N) : list N :=
  match width with
  | O => []
  | S k => N.shiftr x (8 * N.of_nat k) mod 256 :: be_bytes k x
  end.

Definition pad (msg : list N) : list N :=
  let len := N.of_nat (length msg) in
  let zeros := N.to_nat ((119 - len mod 64) mod 64) in
  msg ++ 128 :: replicate zeros 0 ++ be_bytes 8 (8 * len).

Fixpoint words (bs : list N) : list N :=
  match bs with
  | a :: b :: c :: d :: rest =>
      (((a * 256 + b) * 256 + c) * 256 + d) :: words rest
  | _ => []
  end.

Fixpoint blocks (fuel : nat) (ws : list N) : list (list N) :=
  match fuel, ws with
  | S k, _ :: _ => take 16 ws :: blocks k (drop 16 ws)
  | _, _ => []
  end.

(** Message schedule, kept with the most recent word first. *)
Fixpoint schedule (n : nat) (rev_w : list N) : list N :=
  match n with
  | O => rev_w
  | S k =>
      let x := N.lxor (N.lxor (nth 2 rev_w 0) (nth 7 rev_w 0))
                      (N.lxor (nth 13 rev_w 0) (nth 15 rev_w 0)) in
      schedule k (rotl 1 x :: rev_w)
  end.

Definition round_fk (i b c d : N) : N * N :=
  if i <? 20 then (N.lor (N.land b c) (N.land (not32 b) d), 1518500249)
  else if i <? 40 then (N.lxor (N.lxor b c) d, 1859775393)
  else if i <? 60 then
    (N.lor (N.lor (N.land b c) (N.land b d)) (N.land c d), 2400959708)
  else (N.lxor (N.lxor b c) d, 3395469782).

Fixpoint rounds (i : N) (ws : list N) (st : state) : state :=
  match ws with
  | [] => st
  | w :: ws' =>
      let '(a, b, c, d, e) := st in
      let '(f, k) := round_fk i b c d in
      let t := add32 (add32 (add32 (add32 (rotl 5 a) f) e) k) w in
      rounds (i + 1) ws' (t, a, rotl 30 b, c, d)
  end.

Definition compress (st : state) (block : list N) : state :=
  let '(h0, h1, h2, h3, h4) := st in
  let '(a, b, c, d, e) := rounds 0 (rev (schedule 64 (rev block))) st in
  (add32 h0 a, add32 h1 b, add32 h2 c, add32 h3 d, add32 h4 e).

Definition init : state :=
  (1732584193, 4023233417, 2562383102, 271733878, 3285377520).

Definition sha1 (s : string) : state :=
  let ws := words (pad (bytes_of s)) in
  foldl compress init (blocks (length ws) ws).

Definition hex_digit (x : N) : ascii :=
  ascii_of_N (if x <? 10 then 48 + x else 87 + x).

Definition hex8 (x : N) : string :=
  String (hex_digit (N.shiftr x 28 mod 16))
 (String (hex_digit (N.shiftr x 24 mod 16))
 (String (hex_digit (N.shiftr x 20 mod 16))
 (String (hex_digit (N.shiftr x 16 mod 16))
 (String (hex_digit (N.shiftr x 12 mod 16))
 (String (hex_digit (N.shiftr x 8 mod 16))
 (String (hex_digit (N.shiftr x 4 mod 16))
 (String (hex_digit (x mod 16)) EmptyString))))))).

Definition hexdigest (st : state) : string :=
  let '(h0, h1, h2, h3, h4) := st in
  hex8 h0 ++ hex8 h1 ++ hex8 h2 ++ hex8 h3 ++ hex8 h4.
End Sha1.

(** ** time.strftime('%Y-%m-%d %H:%M:%S', time.gmtime()) and "%.6f" *)

Module Calendar.
#[local] Open Scope N_scope.

Fixpoint zeros (n : nat) : string :=
  match n with O => "" | S k => String "0" (zeros k) end.

(** Decimal text of [n], padded with zeros on the left up to [width]. *)
Definition zero_pad (width : nat) (n : N) : string :=
  let s := pretty n in zeros (width - String.length s) ++ s.

(** Year, month and day of the proleptic Gregorian calendar, from the
    count of days since 1970-01-01. *)
Definition civil (days : N) : N * N * N :=
  let z := days + 719468 in
  let era := z / 146097 in
  let doe := z mod 146097 in
  let yoe := (doe - doe / 1460 + doe / 36524 - doe / 146096) / 365 in
  let doy := doe - (365 * yoe + yoe / 4 - yoe / 100) in
  let mp := (5 * doy + 2) / 153 in
  let d := doy - (153 * mp + 2) / 5 + 1 in
  let m := if mp <? 10 then mp + 3 else mp - 9 in
  let y := yoe + era * 400 + (if m <=? 2 then 1 else 0) in
  (y, m, d).

(** [secs] counts seconds since the epoch, UTC. *)
Definition strftime (secs : N) : string :=
  let '(y, m, d) := civil (secs / 86400) in
  let r := secs mod 86400 in
  pretty y ++ "-" ++ zero_pad 2 m ++ "-" ++ zero_pad 2 d ++ " " ++
  zero_pad 2 (r / 3600) ++ ":" ++ zero_pad 2 (r mod 3600 / 60) ++ ":" ++
  zero_pad 2 (r mod 60).

(** ["%.6f" % epoch], the epoch being held in microseconds. *)
Definition fixed6 (micros : N) : string :=
  pretty (micros / 1000000) ++ "." ++ zero_pad 6 (micros mod 1000000).
End Calendar.

(** ** JSON values *)

Inductive json : Type :=
| JNull
| JBool (b : bool)
| JNum (n : Z)
| JStr (s : string)
| JArr (l : list json)
| JObj (m : gmap string json).

(** ** Exceptions, the world and the monad of methods *)

Inductive exn : Type :=
| IOError
| ValueError
| AttributeError
| TypeError
| IndexError
| KeyError (msg : string).

Inductive outcome (A : Type) : Type :=
| Ok (a : A)
| Raise (e : exn).
Arguments Ok {A} a.
Arguments Raise {A} e.

(** What [open(path, 'r')] followed by [json.loads] finds. *)
Inductive file : Type :=
| Absent
| Malformed
| Encodes (v : json).

Record world : Type := World {
  disk : file;              (* the backing file *)
  writes : nat;             (* how many times the file has been rewritten *)
  now : N;                  (* the clock, in microseconds since the epoch *)
  later : list N;           (* what the clock shows at the following readings *)
  dice : list N;            (* the coming draws of the random generator *)
  twin_last : string -> bool
    (* dict iteration order: whether, in a dict holding the text key [s] and
       a key that is not text but is written as [s], the latter comes last *)
}.

Definition py (A : Type) : Type := world -> outcome A * world.

Definition ret {A} (a : A) : py A := fun w => (Ok a, w).
Definition raise {A} (e : exn) : py A := fun w => (Raise e, w).
Definition bind {A B} (c : py A) (k : A -> py B) : py B :=
  fun w => match c w with
           | (Ok a, w') => k a w'
           | (Raise e, w') => (Raise e, w')
           end.

Declare Scope py_scope.
Delimit Scope py_scope with py.
Notation "x <- c ;; k" := (bind c (fun x => k))
  (at level 20, c at level 99, k at level 200, only parsing) : py_scope.
Notation "'exec' c ;; k" := (bind c (fun _ => k))
  (at level 20, c at level 99, k at level 200, only parsing) : py_scope.
#[local] Open Scope py_scope.

(** [try: body  except ...: handler], the handler choosing by exception. *)
Definition try_except {A} (body : py A) (handler : exn -> option (py A)) : py A :=
  fun w => match body w with
           | (Raise e, w') =>
               match handler e with
               | Some h => h w'
               | None => (Raise e, w')
               end
           | r => r
           end.

(** [except KeyError as e: raise KeyError(msg)] *)
Definition on_KeyError {A} (msg : string) (e : exn) : option (py A) :=
  match e with
  | KeyError _ => Some (raise (KeyError msg))
  | _ => None
  end.

Fixpoint for_each {A} (xs : list A) (body : A -> py unit) : py unit :=
  match xs with
  | [] => ret tt
  | x :: rest => exec body x ;; for_each rest body
  end.

(** ** The clock and the random generator *)

Definition clock_read : py N := fun w =>
  (Ok (now w),
   {| disk := disk w; writes := writes w;
      now := hd (now w) (later w); later := tl (later w);
      dice := dice w; twin_last := twin_last w |}).

(** [random.randint(lo, hi)] *)
Definition randint (lo hi : N) : py N := fun w =>
  (Ok (lo + hd 0 (dice w) mod (hi - lo + 1))%N,
   {| disk := disk w; writes := writes w; now := now w; later := later w;
      dice := tl (dice w); twin_last := twin_last w |}).

(** ** The file *)

Definition read_json : py json := fun w =>
  match disk w with
  | Absent => (Raise IOError, w)
  | Malformed => (Raise ValueError, w)
  | Encodes v => (Ok v, w)
  end.

Definition write_json (v : json) : py unit := fun w =>
  (Ok tt,
   {| disk := Encodes v; writes := S (writes w);
      now := now w; later := later w; dice := dice w;
      twin_last := twin_last w |}).

(** ** Python's operations on the values of the store *)

(** [v.keys()]: only a dict has the method. *)
Definition py_keys (v : json) : py (list string) :=
  match v with
  | JObj m => ret (elements (dom m))
  | _ => raise AttributeError
  end.

(** [c[k]] for a text [k]: a dict looks the key up; sequences and texts take
    integer indices only; the other values cannot be subscripted. *)
Definition py_getitem (c : json) (k : string) : py json :=
  match c with
  | JObj m =>
      match m !! k with
      | Some v => ret v
      | None => raise (KeyError k)
      end
  | _ => raise TypeError
  end.

(** [del c[k]] for a text [k]. *)
Definition py_delitem (c : json) (k : string) : py json :=
  match c with
  | JObj m =>
      match m !! k with
      | Some _ => ret (JObj (delete k m))
      | None => raise (KeyError k)
      end
  | _ => raise TypeError
  end.

(** The position that the integer [n] designates in a list of [len] items,
    negative integers counting from the end. *)
Definition py_index (len : nat) (n : Z) : option nat :=
  if (0 <=? n)%Z && (n <? Z.of_nat len)%Z then Some (Z.to_nat n)
  else if (- Z.of_nat len <=? n)%Z && (n <? 0)%Z
       then Some (Z.to_nat (Z.of_nat len + n))
       else None.

(** How [json.dumps] writes a dict key that is not text. *)
Definition key_text (k : json) : option string :=
  match k with
  | JStr s => Some s
  | JNum n => Some (pretty n)
  | JBool true => Some "true"
  | JBool false => Some "false"
  | JNull => Some "null"
  | JArr _ | JObj _ => None
  end.

(** [c[k] = v] for any key [k], the container being described as it comes
    back from the file.  In a dict a text key is overwritten or added.  A
    number, a boolean or null is a key of its own in memory, never equal to
    a text key; [json.dumps] writes it as text, so that the file may carry
    the same key twice, and [json.loads] keeps the entry written last.
    Lists and dicts cannot be keys.  A list takes an integer (or boolean)
    position within its bounds. *)
Definition py_setitem (c k v : json) : py json :=
  match c with
  | JObj m =>
      match k with
      | JStr s => ret (JObj (<[s := v]> m))
      | JArr _ | JObj _ => raise TypeError
      | _ =>
          match key_text k with
          | Some s =>
              match m !! s with
              | None => ret (JObj (<[s := v]> m))
              | Some _ => fun w =>
                  (Ok (if twin_last w s then JObj (<[s := v]> m) else JObj m), w)
              end
          | None => raise TypeError
          end
      end
  | JArr l =>
      match k with
      | JNum n =>
          match py_index (length l) n with
          | Some i => ret (JArr (<[i := v]> l))
          | None => raise IndexError
          end
      | JBool b =>
          match py_index (length l) (if b then 1 else 0) with
          | Some i => ret (JArr (<[i := v]> l))
          | None => raise IndexError
          end
      | _ => raise TypeError
      end
  | _ => raise TypeError
  end.

(** The object reached as [db[type]] has been changed in place: [db] now
    shows the changed object under [type]. *)
Definition changed_in_place (db : json) (type : string) (c : json) : json :=
  match db with
  | JObj m => JObj (<[type := c]> m)
  | _ => db
  end.

(** ** The methods of [JsonDatastore] *)

Definition _db_write (data : json) : py unit := write_json data.

Definition _db_read : py json :=
  try_except read_json
    (fun e => match e with
              | IOError => Some (ret (JObj ∅))
              | ValueError => Some (ret (JObj ∅))
              | _ => None
              end).

Definition _genrate_id : py string :=
  epoch <- clock_read ;;
  rand <- randint 0 99999 ;;
  ret (Sha1.hexdigest (Sha1.sha1 (pretty rand ++ "-" ++ Calendar.fixed6 epoch))).

Definition _get_timestamp : py string :=
  t <- clock_read ;;
  ret (Calendar.strftime (t / 1000000)%N).

Definition save (type : string) (data : gmap string json)
  : py (gmap string json) :=
  db <- _db_read ;;
  ks <- py_keys db ;;
  db <- (if decide (type ∈ ks) then ret db
         else py_setitem db (JStr type) (JObj ∅)) ;;
  data <- (if decide ("_id" ∈ elements (dom data)) then ret data
           else
             id <- _genrate_id ;;
             let data := <["_id" := JStr id]> data in
             created <- _get_timestamp ;;
             ret (<["_created" := JStr created]> data)) ;;
  updated <- _get_timestamp ;;
  let data := <["_updated" := JStr updated]> data in
  coll <- py_getitem db type ;;
  coll <- py_setitem coll (default JNull (data !! "_id")) (JObj data) ;;
  exec _db_write (changed_in_place db type coll) ;;
  ret data.

Definition load (type id : string) : py json :=
  try_except
    (db <- _db_read ;;
     coll <- py_getitem db type ;;
     py_getitem coll id)
    (on_KeyError ("No '" ++ type ++ "' with id '" ++ id ++ "'")).

Definition delete_doc (type id : string) : py unit :=
  try_except
    (db <- _db_read ;;
     coll <- py_getitem db type ;;
     coll <- py_delitem coll id ;;
     _db_write (changed_in_place db type coll))
    (on_KeyError ("No '" ++ type ++ "' with id '" ++ id ++ "'")).

Definition list_docs (type : string) : py (list string) :=
  try_except
    (db <- _db_read ;;
     coll <- py_getitem db type ;;
     py_keys coll)
    (on_KeyError ("No document of type '" ++ type ++ "' in DB")).

Definition delete_all_docs (type : string) : py unit :=
  ids <- list_docs type ;;
  for_each ids (fun id => delete_doc type id).

Definition delete_type (type : string) : py unit :=
  try_except
    (db <- _db_read ;;
     db <- py_delitem db type ;;
     _db_write db)
    (on_KeyError ("No document of type '" ++ type ++ "' in DB")).

Definition list_types : py (list string) :=
  db <- _db_read ;;
  py_keys db.

(** The public interface as a type of calls, to speak of "every public
    operation". *)
Inductive call : Type :=
| Save (type : string) (data : gmap string json)
| Load (type id : string)
| DeleteDoc (type id : string)
| DeleteAllDocs (type : string)
| DeleteType (type : string)
| ListDocs (type : string)
| ListTypes.

Inductive reply : Type :=
| Doc (d : gmap string json)
| Value (v : json)
| Names (l : list string)
| Done.

Definition perform (c : call) : py reply :=
  match c with
  | Save type data => d <- save type data ;; ret (Doc d)
  | Load type id => v <- load type id ;; ret (Value v)
  | DeleteDoc type id => exec delete_doc type id ;; ret Done
  | DeleteAllDocs type => exec delete_all_docs type ;; ret Done
  | DeleteType type => exec delete_type type ;; ret Done
  | ListDocs type => l <- list_docs type ;; ret (Names l)
  | ListTypes => l <- list_types ;; ret (Names l)
  end.

(** ** The data model of the specification

    A Database maps type names to TypeCollections, a TypeCollection maps
    document ids to Documents, a Document maps field names to values. *)

Abbreviation Document := (gmap string json).
Abbreviation TypeCollection := (gmap string (gmap string json)).
Abbreviation Database := (gmap string (gmap string (gmap string json))).

Definition encode_collection (c : TypeCollection) : json := JObj (JObj <$> c).
Definition encode (D : Database) : json := JObj (encode_collection <$> D).

(** read-database() yields the Database [D]. *)
Definition stored (w : world) (D : Database) : Prop :=
  fst (_db_read w) = Ok (encode D).

(** The value carried under ['_id'], when there is one, is a text. *)
Definition text_id (data : Document) : Prop :=
  match data !! "_id" with
  | None | Some (JStr _) => True
  | Some _ => False
  end.

(** save as section 4.1 of the specification words it, on a Database. *)
Definition save_spec (type : string) (data : Document) (D : Database)
  : py (gmap string json * gmap string (gmap string (gmap string json))) :=
  let coll := default ∅ (D !! type) in
  data <- (match data !! "_id" with
           | Some _ => ret data
           | None =>
               id <- _genrate_id ;;
               created <- _get_timestamp ;;
               ret (<["_created" := JStr created]> (<["_id" := JStr id]> data))
           end) ;;
  updated <- _get_timestamp ;;
  let data := <["_updated" := JStr updated]> data in
  match data !! "_id" with
  | Some (JStr id) => ret (data, <[type := <[id := data]> coll]> D)
  | _ => ret (data, D)
  end.

(** What the [n]-th coming reading of the clock shows. *)
Fixpoint reading (n : nat) (w : world) : N :=
  match n with
  | O => now w
  | S k => reading k (snd (clock_read w))
  end.

(** Every document is filed under its own ['_id']. *)
Definition keyed_by_id (D : Database) : Prop :=
  forall type c k d,
    D !! type = Some c -> c !! k = Some d -> d !! "_id" = Some (JStr k).

(** The worlds that calls allowed by [allowed] lead to, from a store whose
    file does not exist yet. *)
Inductive reachable (allowed : call -> Prop) : world -> Prop :=
| reach_fresh w : disk w = Absent -> reachable allowed w
| reach_step w c : reachable allowed w -> allowed c ->
                   reachable allowed (snd (perform c w)).

Definition text_keyed (c : call) : Prop :=
  match c with
  | Save _ data => text_id data
  | _ => True
  end.

(** [needle] occurs in [hay]. *)
Definition occurs_in (needle hay : string) : Prop :=
  exists pre post, hay = pre ++ needle ++ post.

(** ** Auxiliary definitions for the proofs *)

(** What read-database() yields in a world. *)
Definition contents (w : world) : json :=
  match disk w with
  | Encodes v => v
  | Absent | Malformed => JObj ∅
  end.

(** The world once [v] has been written. *)
Definition written (v : json) (w : world) : world := snd (_db_write v w).

(** The part of save that fills in the reserved fields. *)
Definition stamp (data : gmap string json) : py (gmap string json) :=
  data <- (if decide ("_id" ∈ elements (dom data)) then ret data
           else
             id <- _genrate_id ;;
             let data := <["_id" := JStr id]> data in
             created <- _get_timestamp ;;
             ret (<["_created" := JStr created]> data)) ;;
  updated <- _get_timestamp ;;
  ret (<["_updated" := JStr updated]> data).

(** The world with a fresh, empty store in place of its file. *)
Definition fresh (w : world) : world :=
  {| disk := Encodes (JObj ∅); writes := writes w; now := now w;
     later := later w; dice := dice w; twin_last := twin_last w |}.

(** The database once save has made sure that it has a collection for
    [type]. *)
Definition ensured (type : string) (m : gmap string json) : gmap string json :=
  if decide (type ∈ elements (dom m)) then m else <[type := JObj ∅]> m.

(** The value of an outcome, [d] standing in for a raised exception. *)
Definition value_of {A} (d : A) (o : outcome A) : A :=
  match o with
  | Ok a => a
  | Raise _ => d
  end.

(** ** Sample worlds and inputs *)

(** No file yet; 2014-05-13 16:53:20 UTC, a tenth of a millisecond passing
    between two readings of the clock. *)
Definition morning : world :=
  {| disk := Absent; writes := 0;
     now := 1400000000123456;
     later := [1400000000123556; 1400000000123656; 1400000000123756;
               1400000000123856; 1400000000123956; 1400000000124056]%N;
     dice := [4242; 31337]%N;
     twin_last := fun _ => true |}.

(** The same store, a few microseconds before the clock reaches the next
    second. *)
Definition turn_of_second : world :=
  {| disk := Absent; writes := 0;
     now := 1400000000999990;
     later := [1400000000999996; 1400000001000002]%N;
     dice := [271]%N;
     twin_last := fun _ => true |}.

(** A file that holds the JSON text [[]]. *)
Definition list_on_disk : world :=
  {| disk := Encodes (JArr []); writes := 0;
     now := 1400000000123456; later := []; dice := [];
     twin_last := fun _ => true |}.

Definition person : gmap string json :=
  <["name" := JStr "Craig"]> (<["age" := JNum 31]> ∅).

Definition numbered : gmap string json := <["_id" := JNum 5]> ∅.

Definition unseen : gmap string json := <["_id" := JStr "x"]> ∅.

Definition library : gmap string (gmap string (gmap string json)) :=
  <["person" :=
      <["a1" := <["_id" := JStr "a1"]> (<["name" := JStr "Craig"]> ∅)]>
     (<["b2" := <["_id" := JStr "b2"]> (<["name" := JStr "Ada"]> ∅)]> ∅)]>
 (<["animal" := <["c3" := <["_id" := JStr "c3"]> ∅]> ∅]> ∅).

Definition shelf : world :=
  {| disk := Encodes (encode library); writes := 3;
     now := 1400000000123456; later := []; dice := [];
     twin_last := fun _ => true |}.

(** The store of [morning] after [save('person', person)], with the clock
    and the random generator set back to where they were. *)
Definition rewound : world :=
  let w := snd (save "person" person morning) in
  {| disk := disk w; writes := writes w;
     now := now morning; later := later morning; dice := dice morning;
     twin_last := twin_last w |}.

(** A character among 0-9 and a-f. *)
Definition is_hex (a : ascii) : bool :=
  let n := N_of_ascii a in
  ((48 <=? n) && (n <=? 57) || (97 <=? n) && (n <=? 102))%N.

(** ** Basic facts *)

Lemma db_read_eq w : _db_read w = (Ok (contents w), w).
Proof.
  unfold _db_read, try_except, read_json, contents.
  destruct (disk w); reflexivity.
Qed.

Lemma stored_contents w D : stored w D <-> contents w = encode D.
Proof.
  unfold stored. rewrite db_read_eq. simpl. split; congruence.
Qed.

Lemma stored_written D w : stored (written (encode D) w) D.
Proof. apply stored_contents. reflexivity. Qed.

Lemma contents_written v w : contents (written v w) = v.
Proof. reflexivity. Qed.

Lemma encode_lookup D type :
  match encode D with
  | JObj m => m !! type = encode_collection <$> D !! type
  | _ => False
  end.
Proof. unfold encode. apply lookup_fmap. Qed.

Lemma encode_insert D type c :
  encode (<[type := c]> D)
  = changed_in_place (encode D) type (encode_collection c).
Proof. unfold encode, changed_in_place. by rewrite fmap_insert. Qed.

Lemma encode_collection_insert c id d :
  encode_collection (<[id := d]> c)
  = JObj (<[id := JObj d]> (JObj <$> c)).
Proof. unfold encode_collection. by rewrite fmap_insert. Qed.

Lemma encode_collection_delete c id :
  encode_collection (delete id c) = JObj (delete id (JObj <$> c)).
Proof. unfold encode_collection. by rewrite fmap_delete. Qed.

Lemma encode_delete D type :
  encode (delete type D) = JObj (delete type (encode_collection <$> D)).
Proof. unfold encode. by rewrite fmap_delete. Qed.

(** ** The methods on a stored Database *)

Section OnDatabase.
Variables (w : world) (D : Database).
Hypothesis HD : stored w D.

Lemma db_read_stored : _db_read w = (Ok (encode D), w).
Proof. rewrite db_read_eq. by apply stored_contents in HD as ->. Qed.

Lemma load_stored type id :
  load type id w =
  match D !! type ≫= (.!! id) with
  | Some d => (Ok (JObj d), w)
  | None => (Raise (KeyError ("No '" ++ type ++ "' with id '" ++ id ++ "'")), w)
  end.
Proof.
  unfold load, try_except, bind. rewrite db_read_stored.
  unfold py_getitem at 1. unfold encode. rewrite lookup_fmap.
  destruct (D !! type) as [c|]; simpl; [|done].
  rewrite lookup_fmap. by destruct (c !! id).
Qed.

Lemma list_docs_stored type :
  list_docs type w =
  match D !! type with
  | Some c => (Ok (elements (dom c)), w)
  | None => (Raise (KeyError ("No document of type '" ++ type ++ "' in DB")), w)
  end.
Proof.
  unfold list_docs, try_except, bind. rewrite db_read_stored.
  unfold py_getitem. unfold encode. rewrite lookup_fmap.
  destruct (D !! type) as [c|]; simpl; [|done].
  by rewrite dom_fmap_L.
Qed.

Lemma list_types_stored : list_types w = (Ok (elements (dom D)), w).
Proof.
  unfold list_types, bind. rewrite db_read_stored. simpl.
  by rewrite dom_fmap_L.
Qed.

Lemma delete_doc_stored type id :
  delete_doc type id w =
  match D !! type with
  | Some c =>
      match c !! id with
      | Some _ => (Ok tt, written (encode (<[type := delete id c]> D)) w)
      | None =>
          (Raise (KeyError ("No '" ++ type ++ "' with id '" ++ id ++ "'")), w)
      end
  | None => (Raise (KeyError ("No '" ++ type ++ "' with id '" ++ id ++ "'")), w)
  end.
Proof.
  unfold delete_doc, try_except, bind. rewrite db_read_stored.
  unfold py_getitem. unfold encode at 1. rewrite lookup_fmap.
  destruct (D !! type) as [c|]; simpl; [|done].
  rewrite lookup_fmap. destruct (c !! id); simpl; [|done].
  by rewrite encode_insert, encode_collection_delete.
Qed.

Lemma delete_type_stored type :
  delete_type type w =
  match D !! type with
  | Some _ => (Ok tt, written (encode (delete type D)) w)
  | None => (Raise (KeyError ("No document of type '" ++ type ++ "' in DB")), w)
  end.
Proof.
  unfold delete_type, try_except, bind. rewrite db_read_stored.
  unfold py_delitem. unfold encode at 1. rewrite lookup_fmap.
  destruct (D !! type) as [c|]; simpl; [|done].
  by rewrite encode_delete.
Qed.
End OnDatabase.

(** ** Reserved fields *)

Ltac run_clock :=
  unfold _get_timestamp, _genrate_id, clock_read, randint, bind, ret;
  cbv beta iota zeta.

Lemma id_in_keys (data : gmap string json) :
  "_id" ∈ elements (dom data) <-> is_Some (data !! "_id").
Proof. rewrite elem_of_elements. apply elem_of_dom. Qed.

Lemma hexdigest_not_empty st : Sha1.hexdigest st <> "".
Proof. destruct st as [[[[h0 h1] h2] h3] h4]. discriminate. Qed.

Lemma strftime_not_empty secs : Calendar.strftime secs <> "".
Proof.
  unfold Calendar.strftime.
  destruct (Calendar.civil _) as [[y m] d].
  destruct (pretty y); discriminate.
Qed.

Lemma generate_id_ok w :
  exists id w', _genrate_id w = (Ok id, w') /\ id <> "" /\
    disk w' = disk w /\ writes w' = writes w /\ twin_last w' = twin_last w /\
    now w' = reading 1 w /\ later w' = tl (later w).
Proof.
  eexists _, _. split; [run_clock; reflexivity|].
  split; [apply hexdigest_not_empty|done].
Qed.

Lemma timestamp_ok w :
  _get_timestamp w
  = (Ok (Calendar.strftime (now w / 1000000)%N), snd (clock_read w)).
Proof. reflexivity. Qed.

Lemma stamp_with_id data w :
  is_Some (data !! "_id") ->
  stamp data w
  = (Ok (<["_updated" := JStr (Calendar.strftime (now w / 1000000)%N)]> data),
     snd (clock_read w)).
Proof.
  intros Hid. unfold stamp.
  destruct (decide _) as [_|Hn]; [|by apply id_in_keys in Hid].
  reflexivity.
Qed.

Lemma stamp_without_id data w :
  data !! "_id" = None ->
  exists id w',
    stamp data w
    = (Ok (<["_updated" := JStr (Calendar.strftime (reading 2 w / 1000000)%N)]>
            (<["_created" := JStr (Calendar.strftime (reading 1 w / 1000000)%N)]>
               (<["_id" := JStr id]> data))), w') /\
    id <> "" /\
    disk w' = disk w /\ writes w' = writes w /\ twin_last w' = twin_last w.
Proof.
  intros Hid. unfold stamp.
  destruct (decide _) as [Hin|_].
  { apply id_in_keys in Hin. rewrite Hid in Hin. by destruct Hin. }
  eexists _, _. split; [run_clock; reflexivity|].
  split; [apply hexdigest_not_empty|done].
Qed.

(** Whatever the data, the fields get filled in, and only the clock and the
    random generator move. *)
Lemma stamp_total data w :
  exists r w', stamp data w = (Ok r, w') /\
    disk w' = disk w /\ writes w' = writes w /\ twin_last w' = twin_last w.
Proof.
  destruct (data !! "_id") eqn:Hid.
  - eexists _, _. split; [by apply stamp_with_id; rewrite Hid|done].
  - destruct (stamp_without_id data w Hid) as (id & w' & -> & _ & ?).
    by eexists _, _.
Qed.

Lemma stamp_text_id data w r w' :
  stamp data w = (Ok r, w') -> text_id data ->
  exists id, r !! "_id" = Some (JStr id) /\
    (data !! "_id" = None \/ data !! "_id" = Some (JStr id)).
Proof.
  intros Hs Ht. unfold text_id in Ht.
  destruct (data !! "_id") as [v|] eqn:Hid.
  - rewrite stamp_with_id in Hs by (by rewrite Hid).
    destruct v; try done. exists s. injection Hs as <- _.
    rewrite lookup_insert_ne by done. auto.
  - destruct (stamp_without_id data w Hid) as (id & w1 & Hs' & _).
    rewrite Hs' in Hs. injection Hs as <- _. exists id.
    rewrite !lookup_insert_ne by done. rewrite lookup_insert_eq. auto.
Qed.

(** ** save *)

Lemma ensured_lookup type m :
  ensured type m !! type = Some (default (JObj ∅) (m !! type)).
Proof.
  unfold ensured. destruct (decide _) as [Hin|Hn].
  - apply elem_of_elements, elem_of_dom in Hin as [c ->]. done.
  - rewrite elem_of_elements, elem_of_dom, <- eq_None_not_Some in Hn.
    rewrite Hn. apply lookup_insert_eq.
Qed.

Lemma bind_ok_inv {A B} (c : py A) (k : A -> py B) w b w' :
  bind c k w = (Ok b, w') ->
  exists a w1, c w = (Ok a, w1) /\ k a w1 = (Ok b, w').
Proof.
  unfold bind. destruct (c w) as [[a|e] w1]; [|done]. eauto.
Qed.

Lemma setitem_world c k v w o w' :
  py_setitem c k v w = (o, w') -> w' = w.
Proof.
  unfold py_setitem, ret, raise. repeat case_match; congruence.
Qed.

(** A save that returns has read a mapping, filled in the reserved fields,
    put the document into the collection and written the whole back. *)
Lemma save_inv type data w r w' :
  save type data w = (Ok r, w') ->
  exists m w1 coll',
    contents w = JObj m /\
    stamp data w = (Ok r, w1) /\
    py_setitem (default (JObj ∅) (m !! type))
      (default JNull (r !! "_id")) (JObj r) w1 = (Ok coll', w1) /\
    w' = written (JObj (<[type := coll']> (ensured type m))) w1.
Proof.
  intros H. unfold save in H.
  apply bind_ok_inv in H as (db & w0 & Hr & H).
  rewrite db_read_eq in Hr. injection Hr as <- <-.
  apply bind_ok_inv in H as (ks & w0 & Hk & H).
  destruct (contents w) as [| | | | |m] eqn:Hc; try done.
  injection Hk as <- <-.
  apply bind_ok_inv in H as (db & w0 & He & H).
  assert (db = JObj (ensured type m) /\ w0 = w) as [-> ->].
  { unfold ensured. destruct (decide _); by injection He as <- <-. }
  apply bind_ok_inv in H as (d1 & w1 & H1 & H).
  apply bind_ok_inv in H as (u & w2 & Hu & H).
  cbv zeta in H.
  assert (stamp data w = (Ok (<["_updated" := JStr u]> d1), w2)) as Hs.
  { unfold stamp. unfold bind at 1. rewrite H1. unfold bind. by rewrite Hu. }
  apply bind_ok_inv in H as (coll & w3 & Hg & H).
  unfold py_getitem in Hg. rewrite ensured_lookup in Hg. injection Hg as <- <-.
  apply bind_ok_inv in H as (coll' & w3 & Hset & H).
  pose proof (setitem_world _ _ _ _ _ _ Hset) as ->.
  apply bind_ok_inv in H as ([] & w3 & Hw & H).
  injection H as <- <-. injection Hw as <-.
  by exists m, w2, coll'.
Qed.

Lemma Ok_inj {A} (a b : A) : Ok a = Ok b -> a = b.
Proof. congruence. Qed.

Lemma save_eq type data w :
  save type data w =
  match contents w with
  | JObj m =>
      match stamp data w with
      | (Ok r, w1) =>
          match py_setitem (default (JObj ∅) (m !! type))
                  (default JNull (r !! "_id")) (JObj r) w1 with
          | (Ok coll', _) =>
              (Ok r, written (JObj (<[type := coll']> (ensured type m))) w1)
          | (Raise e, _) => (Raise e, w1)
          end
      | (Raise e, w1) => (Raise e, w1)
      end
  | _ => (Raise AttributeError, w)
  end.
Proof.
  unfold save. unfold bind at 1. rewrite db_read_eq.
  destruct (contents w) as [| | | | |m] eqn:Hc; try reflexivity.
  unfold bind at 1. unfold py_keys, ret at 1. unfold bind at 1.
  assert ((if decide (type ∈ elements (dom m)) then ret (JObj m)
           else py_setitem (JObj m) (JStr type) (JObj ∅)) w
          = (Ok (JObj (ensured type m)), w)) as ->.
  { unfold ensured. by destruct (decide _). }
  unfold stamp. 
  destruct (decide ("_id" ∈ elements (dom data))); run_clock;
  unfold py_getitem; rewrite ensured_lookup; unfold ret at 1;
  match goal with |- context [py_setitem ?c ?k ?v ?w1] =>
    destruct (py_setitem c k v w1) as [[coll1|e1] w2] eqn:Hset;
    apply setitem_world in Hset as -> end; reflexivity.
Qed.

Lemma insert_ensured type v m : <[type := v]> (ensured type m) = <[type := v]> m.
Proof. unfold ensured. destruct (decide _); [done|]. apply insert_insert_eq. Qed.

Lemma encode_default D type :
  match encode D with
  | JObj m => default (JObj ∅) (m !! type)
  | _ => JNull
  end = encode_collection (default ∅ (D !! type)).
Proof.
  unfold encode. rewrite lookup_fmap. destruct (D !! type); [done|].
  simpl. unfold encode_collection. by rewrite fmap_empty.
Qed.

Lemma save_stored type data w D :
  stored w D -> text_id data ->
  exists r w1 id,
    stamp data w = (Ok r, w1) /\ r !! "_id" = Some (JStr id) /\
    save type data w
    = (Ok r, written (encode (<[type := <[id := r]> (default ∅ (D !! type))]> D)) w1).
Proof.
  intros HD Ht. apply stored_contents in HD.
  destruct (stamp_total data w) as (r & w1 & Hs & _).
  destruct (stamp_text_id _ _ _ _ Hs Ht) as (id & Hid & _).
  exists r, w1, id. split; [done|]. split; [done|].
  rewrite save_eq, HD, Hs, Hid. pose proof (encode_default D type) as Hd.
  unfold encode in *. rewrite Hd. unfold encode_collection at 1. simpl.
  rewrite insert_ensured. unfold written. simpl.
  by rewrite fmap_insert, encode_collection_insert.
Qed.

Lemma save_spec_stamp type data D w r w1 id :
  stamp data w = (Ok r, w1) -> r !! "_id" = Some (JStr id) ->
  save_spec type data D w
  = (Ok (r, <[type := <[id := r]> (default ∅ (D !! type))]> D), w1).
Proof.
  unfold save_spec, stamp.
  destruct (decide _) as [Hin|Hn].
  - apply id_in_keys in Hin as [v ->]. run_clock.
    intros Hs Hid. apply pair_equal_spec in Hs as [Hr Hw].
    apply Ok_inj in Hr. subst r w1. by rewrite Hid.
  - rewrite id_in_keys, <- eq_None_not_Some in Hn. rewrite Hn. run_clock.
    intros Hs Hid. apply pair_equal_spec in Hs as [Hr Hw].
    apply Ok_inj in Hr. subst r w1. by rewrite Hid.
Qed.

(** ** delete_all_docs *)

Lemma lookup_foldl_delete (ids : list string) (c : gmap string (gmap string json)) k :
  foldl (fun c id => delete id c) c ids !! k
  = if decide (k ∈ ids) then None else c !! k.
Proof.
  revert c. induction ids as [|x ids IH]; intros c; cbn [foldl].
  - case_decide as Hin; [by apply elem_of_nil in Hin|done].
  - rewrite IH. destruct (decide (k ∈ ids)) as [Hin|Hn].
    + rewrite decide_True; [done|by right].
    + destruct (decide (k = x)) as [->|Hne].
      * rewrite decide_True by left. apply lookup_delete_eq.
      * rewrite decide_False; [by apply lookup_delete_ne|].
        by intros [?|?]%elem_of_cons.
Qed.

Lemma foldl_delete_all (c : gmap string (gmap string json)) :
  foldl (fun c id => delete id c) c (elements (dom c)) = ∅.
Proof.
  apply map_eq. intros k. rewrite lookup_foldl_delete, lookup_empty.
  destruct (decide _) as [_|Hn]; [done|].
  by rewrite elem_of_elements, elem_of_dom, <- eq_None_not_Some in Hn.
Qed.

Lemma for_each_delete_doc type ids : forall w D c,
  stored w D -> D !! type = Some c -> NoDup ids ->
  (forall id, id ∈ ids -> is_Some (c !! id)) ->
  exists w',
    for_each ids (fun id => delete_doc type id) w = (Ok tt, w') /\
    stored w' (<[type := foldl (fun c id => delete id c) c ids]> D) /\
    writes w' = length ids + writes w.
Proof.
  induction ids as [|x ids IH]; intros w D c HD Hc Hnd Hin.
  - exists w. simpl. by rewrite insert_id.
  - apply NoDup_cons in Hnd as [Hx Hnd].
    destruct (Hin x) as [d Hd]; [by left|].
    destruct (IH (written (encode (<[type := delete x c]> D)) w)
                (<[type := delete x c]> D) (delete x c)) as (w' & Hrun & Hst & Hwr).
    + apply stored_written.
    + apply lookup_insert_eq.
    + done.
    + intros id Hid. rewrite lookup_delete_ne; [apply Hin; by right|].
      by intros ->.
    + exists w'. split; [|split].
      * simpl. unfold bind. rewrite (delete_doc_stored w D HD), Hc, Hd. done.
      * simpl. by rewrite insert_insert_eq in Hst.
      * rewrite Hwr. simpl. lia.
Qed.

Lemma delete_all_docs_stored w D type c :
  stored w D -> D !! type = Some c ->
  exists w',
    delete_all_docs type w = (Ok tt, w') /\
    stored w' (<[type := ∅]> D) /\
    writes w' = length (elements (dom c)) + writes w.
Proof.
  intros HD Hc.
  destruct (for_each_delete_doc type (elements (dom c)) w D c HD Hc)
    as (w' & Hrun & Hst & Hwr).
  - apply NoDup_elements.
  - intros id Hid. by apply elem_of_dom, elem_of_elements.
  - exists w'. rewrite foldl_delete_all in Hst. split; [|done].
    unfold delete_all_docs, bind.
    by rewrite (list_docs_stored w D HD), Hc.
Qed.

Lemma delete_all_docs_missing w D type :
  stored w D -> D !! type = None ->
  delete_all_docs type w
  = (Raise (KeyError ("No document of type '" ++ type ++ "' in DB")), w).
Proof.
  intros HD Hc. unfold delete_all_docs, bind.
  by rewrite (list_docs_stored w D HD), Hc.
Qed.

(** ** Reading back what has been put on file *)

Lemma load_found w m type c id v :
  contents w = JObj m -> m !! type = Some (JObj c) -> c !! id = Some v ->
  load type id w = (Ok v, w).
Proof.
  intros Hc Ht Hi. unfold load, try_except, bind.
  rewrite db_read_eq, Hc. unfold py_getitem. rewrite Ht. simpl. by rewrite Hi.
Qed.

Lemma list_docs_found w m type c :
  contents w = JObj m -> m !! type = Some (JObj c) ->
  list_docs type w = (Ok (elements (dom c)), w).
Proof.
  intros Hc Ht. unfold list_docs, try_except, bind.
  rewrite db_read_eq, Hc. unfold py_getitem. by rewrite Ht.
Qed.

(** A save that returns a document with a text id has found a mapping under
    [type] (or none) and has put the document into it under that id. *)
Lemma save_text_id_inv type data w r w' id :
  save type data w = (Ok r, w') -> r !! "_id" = Some (JStr id) ->
  exists m c w1,
    contents w = JObj m /\
    default (JObj ∅) (m !! type) = JObj c /\
    stamp data w = (Ok r, w1) /\
    w' = written (JObj (<[type := JObj (<[id := JObj r]> c)]> m)) w1.
Proof.
  intros Hs Hid.
  apply save_inv in Hs as (m & w1 & coll' & Hc & Hst & Hset & ->).
  rewrite Hid in Hset. simpl in Hset.
  destruct (default (JObj ∅) (m !! type)) as [| | | | |c] eqn:Hd; try done.
  injection Hset as <-. exists m, c, w1.
  by rewrite insert_ensured.
Qed.

Lemma save_text_id_run type data w r w1 id m c :
  contents w = JObj m ->
  default (JObj ∅) (m !! type) = JObj c ->
  stamp data w = (Ok r, w1) -> r !! "_id" = Some (JStr id) ->
  save type data w
  = (Ok r, written (JObj (<[type := JObj (<[id := JObj r]> c)]> m)) w1).
Proof.
  intros Hc Hd Hst Hid. rewrite save_eq, Hc, Hst, Hid, Hd. simpl.
  by rewrite insert_ensured.
Qed.

Lemma stamp_keeps_disk data w r w1 :
  stamp data w = (Ok r, w1) ->
  disk w1 = disk w /\ writes w1 = writes w /\ twin_last w1 = twin_last w.
Proof.
  intros Hs. destruct (stamp_total data w) as (r' & w' & Hs' & H).
  rewrite Hs in Hs'. by injection Hs' as <- <-.
Qed.

(** * The claims *)

(** ** save *)

(** C1, as stated, at a concrete input: a mapping that brings its own ['_id']
    and no ['_created'] is stored and returned without a ['_created'] field,
    so the returned document does not always carry the three reserved
    fields.  Here [save('person', {'_id': 'x'})] on a store without file. *)
Lemma save_may_lack_created :
  ~ (forall type data w r w',
       save type data w = (Ok r, w') ->
       is_Some (r !! "_id") /\ is_Some (r !! "_created") /\
       is_Some (r !! "_updated")).
Proof.
  intros H.
  assert (save "person" unseen morning
          = (Ok (<["_updated" := JStr "2014-05-13 16:53:20"]> unseen),
             snd (save "person" unseen morning))) as Hs
    by (vm_compute; reflexivity).
  destruct (H _ _ _ _ _ Hs) as (_ & [v Hv] & _).
  rewrite lookup_insert_ne in Hv by done.
  unfold unseen in Hv. rewrite lookup_insert_ne, lookup_empty in Hv by done.
  discriminate.
Qed.

(** C1, amended: on a stored Database [D] and for a mapping whose ['_id'],
    if any, is a text, save does what the specification words ([save_spec]):
    it returns the document [r] that [save_spec] returns and leaves on file
    the Database [D'] that [save_spec] yields, after exactly one write;
    [r] is filed in [type]'s collection under its own id, in place of any
    document that had this id; [r] carries ['_id'] and ['_updated'], and
    ['_created'] whenever the mapping lacked ['_id'] or carried
    ['_created']. *)
Theorem save_refines_spec type data w D :
  stored w D -> text_id data ->
  exists r D' w1 id,
    save_spec type data D w = (Ok (r, D'), w1) /\
    save type data w = (Ok r, written (encode D') w1) /\
    writes (written (encode D') w1) = S (writes w) /\
    r !! "_id" = Some (JStr id) /\
    D' = <[type := <[id := r]> (default ∅ (D !! type))]> D /\
    is_Some (r !! "_updated") /\
    (data !! "_id" = None \/ is_Some (data !! "_created") ->
     is_Some (r !! "_created")).
Proof.
  intros HD Ht.
  destruct (save_stored type data w D HD Ht) as (r & w1 & id & Hs & Hid & Hsave).
  exists r, (<[type := <[id := r]> (default ∅ (D !! type))]> D), w1, id.
  split; [by apply save_spec_stamp|]. split; [done|].
  split. { simpl. f_equal. by apply stamp_keeps_disk in Hs as (_ & ? & _). }
  split; [done|]. split; [done|].
  destruct (data !! "_id") as [v|] eqn:Hv.
  - rewrite stamp_with_id in Hs by (by rewrite Hv). injection Hs as <- _.
    split; [by rewrite lookup_insert_eq|].
    intros [?|Hc]; [done|]. by rewrite lookup_insert_ne.
  - destruct (stamp_without_id data w Hv) as (id' & w' & Hs' & _).
    rewrite Hs' in Hs. injection Hs as <- _.
    split; [by rewrite lookup_insert_eq|]. intros _.
    rewrite lookup_insert_ne by done. by rewrite lookup_insert_eq.
Qed.

Lemma save_refines_spec_witness :
  stored morning ∅ /\ text_id person /\
  exists r D' w1 id,
    save_spec "person" person ∅ morning = (Ok (r, D'), w1) /\
    save "person" person morning = (Ok r, written (encode D') w1) /\
    writes (written (encode D') w1) = S (writes morning) /\
    r !! "_id" = Some (JStr id) /\
    D' = <["person" := <[id := r]> (default ∅ ((∅ : Database) !! "person"))]> ∅ /\
    is_Some (r !! "_updated") /\
    (person !! "_id" = None \/ is_Some (person !! "_created") ->
     is_Some (r !! "_created")).
Proof.
  split; [reflexivity|]. split; [exact I|].
  apply (save_refines_spec "person" person morning ∅); [reflexivity|exact I].
Defined.

(** C2, as stated, at a concrete input: [save('t', {'_id': 5})] succeeds and
    returns a document whose ['_id'] is the number 5; the file holds the
    document under the text key "5", and no text id makes load return it as
    the document whose ['_id'] was passed. *)
Lemma load_after_save_numeric_id :
  ~ (forall type data w r w',
       save type data w = (Ok r, w') ->
       exists id, r !! "_id" = Some (JStr id) /\
                  fst (load type id w') = Ok (JObj r)).
Proof.
  intros H.
  assert (save "t" numbered morning
          = (Ok (<["_updated" := JStr "2014-05-13 16:53:20"]> numbered),
             snd (save "t" numbered morning))) as Hs
    by (vm_compute; reflexivity).
  destruct (H _ _ _ _ _ Hs) as (id & Hid & _).
  rewrite lookup_insert_ne in Hid by done.
  unfold numbered in Hid. rewrite lookup_insert_eq in Hid.
  discriminate.
Qed.

(** C2, amended: after a successful [save(type, data)] whose [data] carries
    no ['_id'] or a text ['_id'], the returned document [r] has a text
    ['_id'] and [load(type, r['_id'])] returns [r], field for field, leaving
    the store as it is. *)
Theorem load_after_save type data w r w' :
  save type data w = (Ok r, w') -> text_id data ->
  exists id, r !! "_id" = Some (JStr id) /\
             load type id w' = (Ok (JObj r), w').
Proof.
  intros Hs Ht.
  pose proof (save_inv _ _ _ _ _ Hs) as (m0 & w0 & coll0 & _ & Hst & _).
  destruct (stamp_text_id _ _ _ _ Hst Ht) as (id & Hid & _).
  exists id. split; [done|].
  destruct (save_text_id_inv _ _ _ _ _ _ Hs Hid) as (m & c & w1 & _ & _ & _ & ->).
  eapply load_found.
  - apply contents_written.
  - apply lookup_insert_eq.
  - apply lookup_insert_eq.
Qed.

Lemma load_after_save_witness :
  let r := value_of ∅ (fst (save "person" person morning)) in
  let w' := snd (save "person" person morning) in
  save "person" person morning = (Ok r, w') /\ text_id person /\
  exists id, r !! "_id" = Some (JStr id) /\
             load "person" id w' = (Ok (JObj r), w').
Proof.
  intros r w'.
  assert (save "person" person morning = (Ok r, w')) as Hs
    by (vm_compute; reflexivity).
  split; [exact Hs|]. split; [exact I|].
  exact (load_after_save "person" person morning r w' Hs I).
Defined.

(** ** read-database *)

Lemma stamp_fresh data w :
  stamp data (fresh w) = (fst (stamp data w), fresh (snd (stamp data w))).
Proof. unfold stamp. destruct (decide _); reflexivity. Qed.

Lemma setitem_fresh c k v w :
  py_setitem c k v (fresh w) = (fst (py_setitem c k v w), fresh w).
Proof.
  unfold py_setitem, ret, raise.
  repeat case_match; try reflexivity; unfold fresh in *; simpl in *; congruence.
Qed.

Lemma save_fresh type data w :
  contents w = JObj ∅ ->
  save type data (fresh w)
  = (fst (save type data w),
     if (writes (snd (save type data w)) =? writes w)%nat
     then fresh (snd (save type data w)) else snd (save type data w)).
Proof.
  intros Hc. rewrite !save_eq, Hc. change (contents (fresh w)) with (JObj ∅).
  rewrite stamp_fresh.
  destruct (stamp data w) as [[r|e] w1] eqn:Hs; simpl.
  - apply stamp_keeps_disk in Hs as (_ & Hw & _).
    rewrite setitem_fresh.
    destruct (py_setitem _ _ _ w1) as [[coll'|e] w2]; simpl.
    + change (match writes w with 0 => false | S m' => (writes w1 =? m')%nat end)
        with (S (writes w1) =? writes w)%nat.
      rewrite Hw. by rewrite (proj2 (Nat.eqb_neq _ _)) by lia.
    + by rewrite Hw, Nat.eqb_refl.
  - destruct (stamp_total data w) as (? & ? & Hs' & _). congruence.
Qed.

(** C3, as stated, at a concrete input: a file that holds the JSON text
    [[]] does not deserialize as a mapping of mappings, yet read-database
    returns the list and not an empty Database. *)
Lemma read_accepts_other_json :
  ~ (forall w,
       disk w = Absent \/ (forall D, disk w <> Encodes (encode D)) ->
       _db_read w = (Ok (JObj ∅), w)).
Proof.
  intros H. specialize (H list_on_disk).
  assert (_db_read list_on_disk = (Ok (JArr []), list_on_disk)) as Hr
    by reflexivity.
  rewrite Hr in H. enough ((Ok (JArr []), list_on_disk)
                           = (Ok (JObj ∅), list_on_disk)) by discriminate.
  apply H. right. intros D. discriminate.
Qed.

(** C3, amended: when the file does not exist or its text is not JSON,
    read-database returns an empty Database and raises nothing, and every
    public operation answers as it does on a fresh store holding the empty
    mapping: same result or exception, and the same final state when it has
    written, the file left untouched when it has not. *)
Theorem tolerant_read w :
  disk w = Absent \/ disk w = Malformed ->
  _db_read w = (Ok (JObj ∅), w) /\
  forall c,
    perform c (fresh w)
    = (fst (perform c w),
       if (writes (snd (perform c w)) =? writes w)%nat
       then fresh (snd (perform c w)) else snd (perform c w)).
Proof.
  intros Hd.
  assert (contents w = JObj ∅) as Hc
    by (unfold contents; destruct Hd as [-> | ->]; reflexivity).
  split; [by rewrite db_read_eq, Hc|].
  assert (stored w ∅) as HD by (by apply stored_contents).
  assert (stored (fresh w) ∅) as HF by reflexivity.
  intros [type data|type id|type id|type|type|type|]; unfold perform, bind.
  - rewrite (save_fresh _ _ _ Hc).
    destruct (save type data w) as [[r|e] w']; simpl; by case_match.
  - rewrite (load_stored _ _ HD), (load_stored _ _ HF), lookup_empty. simpl.
    by rewrite Nat.eqb_refl.
  - rewrite (delete_doc_stored _ _ HD), (delete_doc_stored _ _ HF), lookup_empty.
    simpl. by rewrite Nat.eqb_refl.
  - rewrite (delete_all_docs_missing _ _ _ HD), (delete_all_docs_missing _ _ _ HF)
      by apply lookup_empty.
    simpl. by rewrite Nat.eqb_refl.
  - rewrite (delete_type_stored _ _ HD), (delete_type_stored _ _ HF), lookup_empty.
    simpl. by rewrite Nat.eqb_refl.
  - rewrite (list_docs_stored _ _ HD), (list_docs_stored _ _ HF), lookup_empty.
    simpl. by rewrite Nat.eqb_refl.
  - rewrite (list_types_stored _ _ HD), (list_types_stored _ _ HF).
    simpl. by rewrite Nat.eqb_refl.
Qed.

Lemma tolerant_read_witness :
  (disk morning = Absent \/ disk morning = Malformed) /\
  _db_read morning = (Ok (JObj ∅), morning) /\
  forall c,
    perform c (fresh morning)
    = (fst (perform c morning),
       if (writes (snd (perform c morning)) =? writes morning)%nat
       then fresh (snd (perform c morning)) else snd (perform c morning)).
Proof.
  split; [left; reflexivity|].
  apply (tolerant_read morning). left. reflexivity.
Defined.

(** ** Creation and update *)

(** C4, as stated, at a concrete input: save reads the clock once for
    ['_created'] and once more for ['_updated']; when the clock reaches the
    next second between the two readings the two fields differ.  Here the
    readings fall at 16:53:20.999996 and 16:53:21.000002. *)
Lemma created_may_differ_from_updated :
  ~ (forall type data w r w',
       data !! "_id" = None ->
       save type data w = (Ok r, w') ->
       exists id created updated,
         r !! "_id" = Some (JStr id) /\
         r !! "_created" = Some (JStr created) /\
         r !! "_updated" = Some (JStr updated) /\
         id <> "" /\ created <> "" /\ updated <> "" /\
         created = updated).
Proof.
  intros H.
  set (r := value_of ∅ (fst (save "person" person turn_of_second))).
  assert (save "person" person turn_of_second
          = (Ok r, snd (save "person" person turn_of_second))) as Hs
    by (vm_compute; reflexivity).
  assert (r !! "_created" = Some (JStr "2014-05-13 16:53:20")) as Hc0
    by (vm_compute; reflexivity).
  assert (r !! "_updated" = Some (JStr "2014-05-13 16:53:21")) as Hu0
    by (vm_compute; reflexivity).
  assert (person !! "_id" = None) as Hn by reflexivity.
  destruct (H _ _ _ _ _ Hn Hs)
    as (id & c & u & _ & Hc & Hu & _ & _ & _ & Hcu).
  rewrite Hc0 in Hc. rewrite Hu0 in Hu. congruence.
Qed.

(** C4, amended: on a stored Database, for a mapping without ['_id'], save
    returns a document with a non-empty generated ['_id'], with ['_created']
    the non-empty timestamp of the clock reading that follows the one taken
    for the id, and with ['_updated'] the non-empty timestamp of the reading
    after that; ['_created'] equals ['_updated'] whenever these two readings
    fall within the same second. *)
Theorem save_new_document type data w D :
  stored w D -> data !! "_id" = None ->
  exists r w' id,
    save type data w = (Ok r, w') /\
    r !! "_id" = Some (JStr id) /\ id <> "" /\
    r !! "_created"
      = Some (JStr (Calendar.strftime (reading 1 w / 1000000)%N)) /\
    r !! "_updated"
      = Some (JStr (Calendar.strftime (reading 2 w / 1000000)%N)) /\
    Calendar.strftime (reading 1 w / 1000000)%N <> "" /\
    Calendar.strftime (reading 2 w / 1000000)%N <> "" /\
    ((reading 1 w / 1000000)%N = (reading 2 w / 1000000)%N ->
     r !! "_created" = r !! "_updated").
Proof.
  intros HD Hn.
  assert (text_id data) as Ht by (unfold text_id; by rewrite Hn).
  destruct (save_stored type data w D HD Ht) as (r & w1 & id0 & Hs & _ & Hsave).
  destruct (stamp_without_id data w Hn) as (id & w2 & Hs' & Hne & _).
  rewrite Hs' in Hs. injection Hs as <- <-.
  eexists _, _, id. split; [exact Hsave|].
  assert (forall u c : json,
            (<["_updated" := u]> (<["_created" := c]> (<["_id" := JStr id]> data)))
              !! "_created" = Some c) as Hcr.
  { intros u c. rewrite lookup_insert_ne by done. apply lookup_insert_eq. }
  split. { rewrite !lookup_insert_ne by done. apply lookup_insert_eq. }
  split; [done|]. split; [apply Hcr|].
  split; [apply lookup_insert_eq|].
  split; [apply strftime_not_empty|]. split; [apply strftime_not_empty|].
  intros Heq. rewrite Hcr, lookup_insert_eq. do 3 f_equal. exact Heq.
Qed.

Lemma save_new_document_witness :
  stored morning ∅ /\ person !! "_id" = None /\
  exists r w' id,
    save "person" person morning = (Ok r, w') /\
    r !! "_id" = Some (JStr id) /\ id <> "" /\
    r !! "_created" = Some (JStr "2014-05-13 16:53:20") /\
    r !! "_updated" = Some (JStr "2014-05-13 16:53:20").
Proof.
  split; [reflexivity|]. split; [reflexivity|].
  assert (stored morning ∅) as HD by reflexivity.
  destruct (save_new_document "person" person morning ∅ HD eq_refl)
    as (r & w' & id & Hs & Hid & Hne & Hc & Hu & _).
  exists r, w', id. repeat split; assumption.
Defined.

(** C5, as stated, at a concrete input: a document saved and saved again
    within the same second keeps the ['_updated'] it had; the field does not
    change.  Here both saves happen at 16:53:20. *)
Lemma resave_same_second :
  ~ (forall type data data' w r w1 r' w2,
       save type data w = (Ok r, w1) ->
       data' !! "_id" = r !! "_id" ->
       save type data' w1 = (Ok r', w2) ->
       r' !! "_updated" <> r !! "_updated").
Proof.
  intros H.
  set (r := value_of ∅ (fst (save "person" person morning))).
  set (w1 := snd (save "person" person morning)).
  set (r' := value_of ∅ (fst (save "person" r w1))).
  assert (save "person" person morning = (Ok r, w1)) as Hs
    by (vm_compute; reflexivity).
  assert (save "person" r w1 = (Ok r', snd (save "person" r w1))) as Hs'
    by (vm_compute; reflexivity).
  assert (r !! "_id" = r !! "_id") as Hsame by reflexivity.
  apply (H _ _ _ _ _ _ _ _ Hs Hsame Hs').
  vm_compute. reflexivity.
Qed.

(** C5, amended: when a document returned by a successful save (of a mapping
    with no ['_id'] or a text ['_id']) is passed to save again under the same
    type with the same ['_id'], other fields possibly changed, the second
    save succeeds and returns the mapping passed with ['_updated'] set to the
    timestamp of the clock at that moment (the same text as before when both
    saves fall within one second); ['_id'] is unchanged, ['_created'] is
    unchanged when the mapping passed still carries it, a following load
    returns the new document, and the ids listed for the type are the same
    before and after: no entry is added. *)
Theorem resave_updates_in_place type data data' w r w1 :
  save type data w = (Ok r, w1) -> text_id data ->
  data' !! "_id" = r !! "_id" ->
  exists id r' w2 ids,
    r !! "_id" = Some (JStr id) /\
    save type data' w1 = (Ok r', w2) /\
    r' = <["_updated" := JStr (Calendar.strftime (now w1 / 1000000)%N)]> data' /\
    r' !! "_id" = r !! "_id" /\
    (data' !! "_created" = r !! "_created" ->
     r' !! "_created" = r !! "_created") /\
    load type id w2 = (Ok (JObj r'), w2) /\
    list_docs type w1 = (Ok ids, w1) /\
    list_docs type w2 = (Ok ids, w2) /\
    id ∈ ids.
Proof.
  intros Hs Ht Hsame.
  pose proof (save_inv _ _ _ _ _ Hs) as (m0 & w0 & coll0 & _ & Hst & _).
  destruct (stamp_text_id _ _ _ _ Hst Ht) as (id & Hid & _).
  destruct (save_text_id_inv _ _ _ _ _ _ Hs Hid) as (m & c & w0' & _ & _ & _ & ->).
  rewrite Hid in Hsame.
  set (c1 := <[id := JObj r]> c).
  set (m1 := <[type := JObj c1]> m).
  set (w1 := written (JObj m1) w0').
  set (r' := <["_updated" := JStr (Calendar.strftime (now w1 / 1000000)%N)]> data').
  assert (r' !! "_id" = Some (JStr id)) as Hid'.
  { unfold r'. by rewrite lookup_insert_ne. }
  assert (save type data' w1
          = (Ok r', written (JObj (<[type := JObj (<[id := JObj r']> c1)]> m1))
                      (snd (clock_read w1)))) as Hs'.
  { apply save_text_id_run; [done| |by apply stamp_with_id; rewrite Hsame|done].
    unfold m1. by rewrite lookup_insert_eq. }
  exists id, r', (written (JObj (<[type := JObj (<[id := JObj r']> c1)]> m1))
                    (snd (clock_read w1))), (elements (dom c1)).
  split; [done|]. split; [exact Hs'|]. split; [done|].
  split; [by rewrite Hid', Hid|].
  split. { intros Hc. unfold r'. by rewrite lookup_insert_ne. }
  split.
  { eapply load_found; [apply contents_written|apply lookup_insert_eq|].
    apply lookup_insert_eq. }
  split.
  { eapply list_docs_found; [apply contents_written|]. apply lookup_insert_eq. }
  split.
  { erewrite list_docs_found;
      [|apply contents_written|apply lookup_insert_eq].
    do 3 f_equal. unfold c1. by rewrite insert_insert_eq, !dom_insert_L. }
  apply elem_of_elements, elem_of_dom. unfold c1.
  rewrite lookup_insert_eq. by eexists.
Qed.

Lemma resave_updates_in_place_witness :
  let r := value_of ∅ (fst (save "person" person morning)) in
  let w1 := snd (save "person" person morning) in
  let data' := <["location" := JStr "Leicester"]> r in
  save "person" person morning = (Ok r, w1) /\ text_id person /\
  data' !! "_id" = r !! "_id" /\
  exists id r' w2 ids,
    r !! "_id" = Some (JStr id) /\
    save "person" data' w1 = (Ok r', w2) /\
    r' !! "location" = Some (JStr "Leicester") /\
    r' !! "_created" = r !! "_created" /\
    load "person" id w2 = (Ok (JObj r'), w2) /\
    list_docs "person" w1 = (Ok ids, w1) /\
    list_docs "person" w2 = (Ok ids, w2).
Proof.
  intros r w1 data'.
  assert (save "person" person morning = (Ok r, w1)) as Hs
    by (vm_compute; reflexivity).
  assert (data' !! "_id" = r !! "_id") as Hsame by (vm_compute; reflexivity).
  split; [exact Hs|]. split; [exact I|]. split; [exact Hsame|].
  destruct (resave_updates_in_place "person" person data' morning r w1 Hs I Hsame)
    as (id & r' & w2 & ids & Hid & Hs' & Hr' & _ & Hc & Hl & Hl1 & Hl2 & _).
  exists id, r', w2, ids. split; [exact Hid|]. split; [exact Hs'|].
  split. { rewrite Hr'. vm_compute. reflexivity. }
  split. { apply Hc. vm_compute. reflexivity. }
  split; [exact Hl|]. split; [exact Hl1|exact Hl2].
Defined.

(** ** Lookup and deletion *)

Lemma append_assoc (a b c : string) : (a ++ b) ++ c = a ++ b ++ c.
Proof.
  induction a as [|x a IH]; [done|].
  change (String x ((a ++ b) ++ c) = String x (a ++ b ++ c)). by rewrite IH.
Qed.

(** C6: on a stored Database, load and delete_doc fail exactly when the type
    is absent from the Database or the id is absent from the type's
    collection; they then raise KeyError (NotFound) and nothing else, with a
    message in which both the type and the id occur. *)
Theorem not_found_exactly_when_absent type id w D :
  stored w D ->
  let absent :=
    D !! type = None \/ exists c, D !! type = Some c /\ c !! id = None in
  let msg := "No '" ++ type ++ "' with id '" ++ id ++ "'" in
  ((exists e, fst (load type id w) = Raise e) <-> absent) /\
  ((exists e, fst (delete_doc type id w) = Raise e) <-> absent) /\
  (forall e, fst (load type id w) = Raise e \/
             fst (delete_doc type id w) = Raise e -> e = KeyError msg) /\
  occurs_in type msg /\ occurs_in id msg.
Proof.
  intros HD absent msg.
  rewrite (load_stored w D HD), (delete_doc_stored w D HD).
  assert (occurs_in type msg /\ occurs_in id msg) as Hocc.
  { split.
    - exists "No '", ("' with id '" ++ id ++ "'"). reflexivity.
    - exists ("No '" ++ type ++ "' with id '"), "'". unfold msg.
      by rewrite !append_assoc. }
  unfold absent.
  destruct (D !! type) as [c|] eqn:Hc; simpl.
  - destruct (c !! id) as [d|] eqn:Hd; simpl.
    + split; [|split; [|split; [|done]]].
      * split; [by intros [e ?]|]. intros [?|(c' & [= <-] & ?)]; congruence.
      * split; [by intros [e ?]|]. intros [?|(c' & [= <-] & ?)]; congruence.
      * by intros e [?|?].
    + split; [|split; [|split; [|done]]].
      * split; [|by eexists]. intros _. right. by exists c.
      * split; [|by eexists]. intros _. right. by exists c.
      * intros e [[= <-]|[= <-]]; done.
  - split; [|split; [|split; [|done]]].
    + split; [by left|by eexists].
    + split; [by left|by eexists].
    + intros e [[= <-]|[= <-]]; done.
Qed.

Lemma not_found_exactly_when_absent_witness :
  stored morning ∅ /\
  fst (load "person" "x" morning)
  = Raise (KeyError "No 'person' with id 'x'") /\
  occurs_in "person" "No 'person' with id 'x'" /\
  occurs_in "x" "No 'person' with id 'x'".
Proof.
  assert (stored morning ∅) as HD by reflexivity.
  split; [exact HD|].
  destruct (not_found_exactly_when_absent "person" "x" morning ∅ HD)
    as (_ & _ & _ & Ht & Hi).
  split; [reflexivity|]. split; [exact Ht|exact Hi].
Defined.

(** C7: whenever delete_doc raises (NotFound in particular), the state it
    leaves is the state it found: the file has not been written and holds
    what it held. *)
Theorem failed_delete_writes_nothing type id w e w' :
  delete_doc type id w = (Raise e, w') ->
  w' = w /\ disk w' = disk w /\ writes w' = writes w.
Proof.
  intros H. enough (w' = w) as -> by done. revert H.
  unfold delete_doc, try_except, bind. rewrite db_read_eq.
  unfold py_getitem, py_delitem, on_KeyError, raise, ret, _db_write, write_json.
  repeat case_match; simplify_eq; congruence.
Qed.

Lemma failed_delete_writes_nothing_witness :
  delete_doc "person" "x" shelf
  = (Raise (KeyError "No 'person' with id 'x'"), shelf) /\
  disk shelf = disk shelf /\ writes shelf = writes shelf.
Proof.
  assert (delete_doc "person" "x" shelf
          = (Raise (KeyError "No 'person' with id 'x'"), shelf)) as H
    by (vm_compute; reflexivity).
  split; [exact H|].
  exact (proj2 (failed_delete_writes_nothing "person" "x" shelf _ shelf H)).
Defined.

(** ** delete_all_docs and delete_type *)

(** C8: on a stored Database, delete_all_docs raises KeyError (NotFound) and
    writes nothing when the type does not exist; otherwise it succeeds by
    running delete_doc once for each id that list_docs showed, one rewrite of
    the file per document, and afterwards load fails with KeyError for every
    one of these ids. *)
Theorem delete_all_docs_empties type w D :
  stored w D ->
  (D !! type = None ->
   exists msg, delete_all_docs type w = (Raise (KeyError msg), w)) /\
  (forall c, D !! type = Some c ->
   exists ids w',
     list_docs type w = (Ok ids, w) /\
     length ids = size c /\
     delete_all_docs type w = for_each ids (fun id => delete_doc type id) w /\
     delete_all_docs type w = (Ok tt, w') /\
     writes w' = length ids + writes w /\
     forall id, id ∈ ids ->
       exists msg, load type id w' = (Raise (KeyError msg), w')).
Proof.
  intros HD. split.
  - intros Hc. eexists. by apply delete_all_docs_missing with D.
  - intros c Hc.
    destruct (delete_all_docs_stored w D type c HD Hc) as (w' & Hrun & Hst & Hwr).
    assert (list_docs type w = (Ok (elements (dom c)), w)) as Hl
      by (by rewrite (list_docs_stored w D HD), Hc).
    exists (elements (dom c)), w'. split; [done|].
    split. { by rewrite <- size_dom. }
    split. { unfold delete_all_docs, bind. by rewrite Hl. }
    split; [done|]. split; [done|].
    intros id _. eexists.
    rewrite (load_stored w' _ Hst), lookup_insert_eq. simpl.
    by rewrite lookup_empty.
Qed.

Lemma delete_all_docs_empties_witness :
  stored shelf library /\
  exists ids w',
    list_docs "person" shelf = (Ok ids, shelf) /\
    length ids = 2 /\
    delete_all_docs "person" shelf = (Ok tt, w') /\
    writes w' = 2 + writes shelf /\
    forall id, id ∈ ids ->
      exists msg, load "person" id w' = (Raise (KeyError msg), w').
Proof.
  assert (stored shelf library) as HD by reflexivity.
  split; [exact HD|].
  destruct (delete_all_docs_empties "person" shelf library HD) as [_ H].
  destruct (H _ eq_refl) as (ids & w' & Hl & Hn & _ & Hrun & Hwr & Hgone).
  exists ids, w'. split; [exact Hl|]. split; [exact Hn|].
  split; [exact Hrun|]. split; [|exact Hgone].
  rewrite Hwr, Hn. reflexivity.
Defined.

(** C10: on a stored Database that has the type, delete_all_docs succeeds
    and leaves the type in place: list_types still shows it and list_docs
    returns the empty list and raises nothing; delete_type, in contrast,
    removes the type from what list_types shows. *)
Theorem delete_all_docs_keeps_type type w D c :
  stored w D -> D !! type = Some c ->
  (exists w' types,
     delete_all_docs type w = (Ok tt, w') /\
     list_types w' = (Ok types, w') /\ type ∈ types /\
     list_docs type w' = (Ok [], w')) /\
  (exists w' types,
     delete_type type w = (Ok tt, w') /\
     list_types w' = (Ok types, w') /\ type ∉ types).
Proof.
  intros HD Hc. split.
  - destruct (delete_all_docs_stored w D type c HD Hc) as (w' & Hrun & Hst & _).
    exists w', (elements (dom (<[type := ∅]> D))).
    split; [done|]. split; [by apply list_types_stored|].
    split.
    + apply elem_of_elements, elem_of_dom. rewrite lookup_insert_eq. by eexists.
    + rewrite (list_docs_stored w' _ Hst), lookup_insert_eq.
      by rewrite dom_empty_L, elements_empty.
  - exists (written (encode (delete type D)) w), (elements (dom (delete type D))).
    split; [by rewrite (delete_type_stored w D HD), Hc|].
    split; [apply list_types_stored, stored_written|].
    rewrite elem_of_elements, elem_of_dom, lookup_delete_eq.
    by intros [? ?].
Qed.

Lemma delete_all_docs_keeps_type_witness :
  stored shelf library /\
  library !! "person" = Some (default ∅ (library !! "person")) /\
  exists w' types,
    delete_all_docs "person" shelf = (Ok tt, w') /\
    list_types w' = (Ok types, w') /\ "person" ∈ types /\
    list_docs "person" w' = (Ok [], w').
Proof.
  assert (stored shelf library) as HD by reflexivity.
  assert (library !! "person" = Some (default ∅ (library !! "person"))) as Hc
    by reflexivity.
  split; [exact HD|]. split; [exact Hc|].
  exact (proj1 (delete_all_docs_keeps_type "person" shelf library _ HD Hc)).
Defined.

(** ** Documents are filed under their own id *)

Lemma keyed_shrink (D D' : gmap string (gmap string (gmap string json))) :
  (forall type c' k d,
     D' !! type = Some c' -> c' !! k = Some d ->
     exists c, D !! type = Some c /\ c !! k = Some d) ->
  keyed_by_id D -> keyed_by_id D'.
Proof.
  intros Hsub Hk type c' k d Hc' Hd.
  destruct (Hsub _ _ _ _ Hc' Hd) as (c & Hc & Hd'). by eapply Hk.
Qed.

Lemma keyed_insert_collection D type c c' :
  D !! type = Some c ->
  (forall k d, c' !! k = Some d -> c !! k = Some d) ->
  keyed_by_id D -> keyed_by_id (<[type := c']> D).
Proof.
  intros Hc Hsub. apply keyed_shrink. intros type' c'' k d Hc'' Hd.
  destruct (decide (type' = type)) as [->|Hne].
  - rewrite lookup_insert_eq in Hc''. injection Hc'' as <-. eauto.
  - rewrite lookup_insert_ne in Hc'' by done. eauto.
Qed.

Lemma keyed_save D type id r :
  r !! "_id" = Some (JStr id) ->
  keyed_by_id D ->
  keyed_by_id (<[type := <[id := r]> (default ∅ (D !! type))]> D).
Proof.
  intros Hid Hk type' c' k d Hc' Hd.
  destruct (decide (type' = type)) as [->|Hne].
  - rewrite lookup_insert_eq in Hc'. injection Hc' as <-.
    destruct (decide (k = id)) as [->|Hk'].
    + rewrite lookup_insert_eq in Hd. by injection Hd as <-.
    + rewrite lookup_insert_ne in Hd by done.
      destruct (D !! type) as [c|] eqn:Hc; simpl in Hd; [by eapply Hk|].
      by rewrite lookup_empty in Hd.
  - rewrite lookup_insert_ne in Hc' by done. by eapply Hk.
Qed.

(** C9, as stated, at a concrete input: from a store without file,
    [save('t', {'_id': 5})] leaves a Database whose collection ['t'] has the
    key "5", and the document stored there has the number 5, not the text
    "5", as its ['_id']. *)
Lemma numeric_id_breaks_keying :
  ~ (forall w,
       reachable (fun _ => True) w ->
       exists D, stored w D /\ keyed_by_id D).
Proof.
  intros H.
  assert (reachable (fun _ => True) (snd (perform (Save "t" numbered) morning)))
    as Hr.
  { apply reach_step; [apply reach_fresh; reflexivity|exact I]. }
  destruct (H _ Hr) as (D & HD & Hk). clear H Hr.
  apply stored_contents in HD.
  assert (contents (snd (perform (Save "t" numbered) morning))
          = JObj (<["t" := JObj (<["5" := JObj
               (<["_updated" := JStr "2014-05-13 16:53:20"]> numbered)]> ∅)]> ∅)) as Hc
    by (vm_compute; reflexivity).
  rewrite Hc in HD. clear Hc.
  unfold encode in HD. injection HD as HD.
  apply (f_equal (.!! "t")) in HD.
  rewrite lookup_insert_eq, lookup_fmap in HD. symmetry in HD.
  apply fmap_Some in HD as (c & Hc' & Henc).
  unfold encode_collection in Henc. injection Henc as Henc.
  apply (f_equal (.!! "5")) in Henc.
  rewrite lookup_insert_eq, lookup_fmap in Henc. symmetry in Henc.
  apply fmap_Some in Henc as (d & Hd & Hdd).
  injection Hdd as <-.
  specialize (Hk _ _ _ _ Hc' Hd).
  rewrite lookup_insert_ne in Hk by done.
  unfold numbered in Hk. rewrite lookup_insert_eq in Hk.
  discriminate.
Qed.

(** C9, amended: starting from a store without file, after any sequence of
    public operations in which every mapping passed to save has no ['_id']
    or a text ['_id'], the file holds a Database in which every document is
    stored under the key equal to its ['_id']. *)
Theorem documents_keyed_by_id w :
  reachable text_keyed w -> exists D, stored w D /\ keyed_by_id D.
Proof.
  induction 1 as [w Hd|w c _ (D & HD & Hk) Hc].
  - exists ∅. split.
    + apply stored_contents. unfold contents. by rewrite Hd.
    + intros type c k d Hc. by rewrite lookup_empty in Hc.
  - destruct c as [type data|type id|type id|type|type|type|];
      unfold perform, bind.
    + destruct (save_stored type data w D HD Hc) as (r & w1 & id & _ & Hid & ->).
      eexists. split; [apply stored_written|]. by apply keyed_save.
    + rewrite (load_stored w D HD).
      destruct (D !! type ≫= _); by exists D.
    + rewrite (delete_doc_stored w D HD).
      destruct (D !! type) as [c|] eqn:Hc'; [|by exists D].
      destruct (c !! id) eqn:Hd; [|by exists D].
      eexists. split; [apply stored_written|].
      apply keyed_insert_collection with c; [done| |done].
      intros k d [_ ?]%lookup_delete_Some. done.
    + destruct (D !! type) as [c|] eqn:Hc'.
      * destruct (delete_all_docs_stored w D type c HD Hc') as (w' & -> & Hst & _).
        eexists. split; [exact Hst|].
        apply keyed_insert_collection with c; [done| |done].
        intros k d Hd. by rewrite lookup_empty in Hd.
      * rewrite (delete_all_docs_missing w D type HD Hc'). by exists D.
    + rewrite (delete_type_stored w D HD).
      destruct (D !! type) as [c|] eqn:Hc'; [|by exists D].
      eexists. split; [apply stored_written|].
      apply keyed_shrink with D; [|done].
      intros type' c' k d [_ ?]%lookup_delete_Some ?. eauto.
    + rewrite (list_docs_stored w D HD).
      destruct (D !! type); by exists D.
    + rewrite (list_types_stored w D HD). by exists D.
Qed.

Lemma documents_keyed_by_id_witness :
  reachable text_keyed (snd (perform (Save "person" person) morning)) /\
  exists D, stored (snd (perform (Save "person" person) morning)) D /\
            keyed_by_id D.
Proof.
  assert (reachable text_keyed (snd (perform (Save "person" person) morning)))
    as Hr.
  { apply reach_step; [apply reach_fresh; reflexivity|exact I]. }
  split; [exact Hr|].
  exact (documents_keyed_by_id _ Hr).
Defined.

(** * Further properties of the methods *)

(** ** Reading never writes *)

(** X1: load, list_docs and list_types leave the state exactly as they found
    it, whatever the file holds and whether they return or raise. *)
Theorem reading_changes_nothing type id w :
  snd (load type id w) = w /\
  snd (list_docs type w) = w /\
  snd (list_types w) = w.
Proof.
  unfold load, list_docs, list_types, try_except, bind.
  rewrite db_read_eq.
  unfold py_getitem, py_keys, on_KeyError, raise, ret.
  repeat split; repeat case_match; simplify_eq; done.
Qed.

(** ** What the listings show *)

(** X2: on a stored Database list_types returns, without repetition, exactly
    the type names that have a collection; for such a type list_docs returns,
    without repetition, exactly the ids that load finds; for any other type
    list_docs raises KeyError with a message naming the type. *)
Theorem listings_enumerate_keys w D :
  stored w D ->
  (exists types,
     list_types w = (Ok types, w) /\ NoDup types /\ length types = size D /\
     forall type, type ∈ types <-> is_Some (D !! type)) /\
  forall type,
    match D !! type with
    | Some c =>
        exists ids,
          list_docs type w = (Ok ids, w) /\ NoDup ids /\ length ids = size c /\
          forall id, id ∈ ids <-> exists d, load type id w = (Ok (JObj d), w)
    | None =>
        list_docs type w
        = (Raise (KeyError ("No document of type '" ++ type ++ "' in DB")), w)
    end.
Proof.
  intros HD. split.
  - exists (elements (dom D)). split; [by apply list_types_stored|].
    split; [apply NoDup_elements|]. split; [by rewrite <- size_dom|].
    intros type. by rewrite elem_of_elements, elem_of_dom.
  - intros type. rewrite (list_docs_stored w D HD).
    destruct (D !! type) as [c|] eqn:Hc; [|done].
    exists (elements (dom c)). split; [done|].
    split; [apply NoDup_elements|]. split; [by rewrite <- size_dom|].
    intros id. rewrite elem_of_elements, elem_of_dom, (load_stored w D HD), Hc.
    simpl. split.
    + intros [d ->]. by exists d.
    + intros [d Hd]. destruct (c !! id); [by eexists|done].
Qed.

Lemma listings_enumerate_keys_witness :
  stored shelf library /\
  exists types, list_types shelf = (Ok types, shelf) /\ length types = 2.
Proof.
  assert (stored shelf library) as HD by reflexivity.
  split; [exact HD|].
  destruct (listings_enumerate_keys shelf library HD)
    as [(types & Hl & _ & Hn & _) _].
  exists types. split; [exact Hl|]. rewrite Hn. reflexivity.
Defined.

(** ** What a change leaves alone *)

(** X3: on a stored Database, deleting a document that is there succeeds
    with one write; afterwards load and a second delete_doc of that id raise
    KeyError, every other document is loaded as before, and the type is still
    listed even when its collection has become empty. *)
Theorem delete_doc_removes_one type id w D c d :
  stored w D -> D !! type = Some c -> c !! id = Some d ->
  exists w',
    delete_doc type id w = (Ok tt, w') /\
    writes w' = S (writes w) /\
    (exists msg, load type id w' = (Raise (KeyError msg), w')) /\
    (exists msg, delete_doc type id w' = (Raise (KeyError msg), w')) /\
    (forall type' id', (type', id') <> (type, id) ->
       fst (load type' id' w') = fst (load type' id' w)) /\
    fst (list_types w') = fst (list_types w).
Proof.
  intros HD Hc Hd.
  set (D' := <[type := delete id c]> D).
  assert (stored (written (encode D') w) D') as HD' by apply stored_written.
  exists (written (encode D') w).
  split; [by rewrite (delete_doc_stored w D HD), Hc, Hd|].
  split; [done|].
  split.
  { eexists. rewrite (load_stored _ _ HD'). unfold D'.
    rewrite lookup_insert_eq. simpl. by rewrite lookup_delete_eq. }
  split.
  { eexists. rewrite (delete_doc_stored _ _ HD'). unfold D'.
    rewrite lookup_insert_eq. by rewrite lookup_delete_eq. }
  split.
  - intros type' id' Hne.
    rewrite (load_stored _ _ HD'), (load_stored _ _ HD). unfold D'.
    destruct (decide (type' = type)) as [->|Ht].
    + rewrite lookup_insert_eq, Hc. simpl.
      rewrite lookup_delete_ne by congruence. by destruct (c !! id').
    + rewrite lookup_insert_ne by done. by destruct (D !! type' ≫= _).
  - rewrite (list_types_stored _ _ HD'), (list_types_stored _ _ HD). simpl.
    unfold D'. by rewrite dom_insert_lookup_L.
Qed.

Lemma delete_doc_removes_one_witness :
  stored shelf library /\
  exists w',
    delete_doc "person" "a1" shelf = (Ok tt, w') /\
    (exists msg, load "person" "a1" w' = (Raise (KeyError msg), w')) /\
    fst (load "person" "b2" w') = fst (load "person" "b2" shelf).
Proof.
  assert (stored shelf library) as HD by reflexivity.
  split; [exact HD|].
  destruct (delete_doc_removes_one "person" "a1" shelf library _ _ HD
              eq_refl eq_refl) as (w' & Hdel & _ & Hgone & _ & Hkeep & _).
  exists w'. split; [exact Hdel|]. split; [exact Hgone|].
  apply Hkeep. discriminate.
Defined.

(** X4: on a stored Database, delete_type raises KeyError with a message
    naming the type, and writes nothing, when the type has no collection;
    otherwise it succeeds with one write, after which list_docs and every
    load under that type raise KeyError, the type is no longer listed, and
    the documents of every other type are loaded as before. *)
Theorem delete_type_removes_type type w D :
  stored w D ->
  (D !! type = None ->
   delete_type type w
   = (Raise (KeyError ("No document of type '" ++ type ++ "' in DB")), w)) /\
  (is_Some (D !! type) ->
   exists w',
     delete_type type w = (Ok tt, w') /\
     writes w' = S (writes w) /\
     (exists msg, list_docs type w' = (Raise (KeyError msg), w')) /\
     (forall id, exists msg, load type id w' = (Raise (KeyError msg), w')) /\
     (forall type' id', type' <> type ->
        fst (load type' id' w') = fst (load type' id' w)) /\
     exists types types',
       list_types w = (Ok types, w) /\ list_types w' = (Ok types', w') /\
       forall t, t ∈ types' <-> t ∈ types /\ t <> type).
Proof.
  intros HD. split.
  - intros Hc. by rewrite (delete_type_stored w D HD), Hc.
  - intros [c Hc].
    assert (stored (written (encode (delete type D)) w) (delete type D)) as HD'
      by apply stored_written.
    exists (written (encode (delete type D)) w).
    split; [by rewrite (delete_type_stored w D HD), Hc|].
    split; [done|].
    split.
    { eexists. by rewrite (list_docs_stored _ _ HD'), lookup_delete_eq. }
    split.
    { intros id. eexists. by rewrite (load_stored _ _ HD'), lookup_delete_eq. }
    split.
    { intros type' id' Hne.
      rewrite (load_stored _ _ HD'), (load_stored _ _ HD).
      rewrite lookup_delete_ne by done. by destruct (D !! type' ≫= _). }
    exists (elements (dom D)), (elements (dom (delete type D))).
    split; [by apply list_types_stored|].
    split; [by apply list_types_stored|].
    intros t. rewrite !elem_of_elements, dom_delete_L. set_solver.
Qed.

Lemma delete_type_removes_type_witness :
  stored shelf library /\ is_Some (library !! "animal") /\
  exists w',
    delete_type "animal" shelf = (Ok tt, w') /\
    (exists msg, list_docs "animal" w' = (Raise (KeyError msg), w')) /\
    fst (load "person" "a1" w') = fst (load "person" "a1" shelf).
Proof.
  assert (stored shelf library) as HD by reflexivity.
  assert (is_Some (library !! "animal")) as Hc by (eexists; reflexivity).
  split; [exact HD|]. split; [exact Hc|].
  destruct (proj2 (delete_type_removes_type "animal" shelf library HD) Hc)
    as (w' & Hdel & _ & Hl & _ & Hkeep & _).
  exists w'. split; [exact Hdel|]. split; [exact Hl|].
  apply Hkeep. discriminate.
Defined.

(** X5: on a stored Database, a save of a mapping with no ['_id'] or a text
    ['_id'] changes one entry only: every document other than the one saved
    is loaded as before, the types listed are those listed before together
    with the type saved to, and the ids listed under that type are those
    that were there together with the id of the saved document. *)
Theorem save_touches_one type data w D :
  stored w D -> text_id data ->
  exists r w' id,
    save type data w = (Ok r, w') /\ r !! "_id" = Some (JStr id) /\
    (forall type' id', (type', id') <> (type, id) ->
       fst (load type' id' w') = fst (load type' id' w)) /\
    (exists types types',
       list_types w = (Ok types, w) /\ list_types w' = (Ok types', w') /\
       forall t, t ∈ types' <-> t = type \/ t ∈ types) /\
    (exists ids',
       list_docs type w' = (Ok ids', w') /\
       forall i, i ∈ ids' <->
                 i = id \/ exists d, fst (load type i w) = Ok d).
Proof.
  intros HD Ht.
  destruct (save_stored type data w D HD Ht) as (r & w1 & id & _ & Hid & Hs).
  set (c := default ∅ (D !! type)) in *.
  set (D' := <[type := <[id := r]> c]> D) in *.
  assert (stored (written (encode D') w1) D') as HD' by apply stored_written.
  exists r, (written (encode D') w1), id. split; [done|]. split; [done|].
  split.
  { intros type' id' Hne.
    rewrite (load_stored _ _ HD'), (load_stored _ _ HD). unfold D'.
    destruct (decide (type' = type)) as [->|Hty].
    - rewrite lookup_insert_eq. simpl.
      rewrite lookup_insert_ne by congruence. unfold c.
      destruct (D !! type) as [c0|]; simpl; [by destruct (c0 !! id')|].
      by rewrite lookup_empty.
    - rewrite lookup_insert_ne by done. by destruct (D !! type' ≫= _). }
  split.
  { exists (elements (dom D)), (elements (dom D')).
    split; [by apply list_types_stored|].
    split; [by apply list_types_stored|].
    intros t. unfold D'. rewrite !elem_of_elements, dom_insert_L. set_solver. }
  exists (elements (dom (<[id := r]> c))).
  split.
  { rewrite (list_docs_stored _ _ HD'). unfold D'. by rewrite lookup_insert_eq. }
  intros i. rewrite elem_of_elements, dom_insert_L, (load_stored _ _ HD).
  rewrite elem_of_union, elem_of_singleton, elem_of_dom. unfold c.
  destruct (D !! type) as [c0|]; simpl.
  - split; (intros [?|H]; [by left|right]).
    + destruct H as [d Hd]. rewrite Hd. by eexists.
    + destruct (c0 !! i); [by eexists|]. by destruct H.
  - rewrite lookup_empty. split; (intros [?|H]; [by left|right]).
    + by destruct H.
    + by destruct H.
Qed.

Lemma save_touches_one_witness :
  stored shelf library /\ text_id person /\
  exists r w' id,
    save "animal" person shelf = (Ok r, w') /\
    r !! "_id" = Some (JStr id) /\
    fst (load "person" "a1" w') = fst (load "person" "a1" shelf).
Proof.
  assert (stored shelf library) as HD by reflexivity.
  split; [exact HD|]. split; [exact I|].
  destruct (save_touches_one "animal" person shelf library HD I)
    as (r & w' & id & Hs & Hid & Hkeep & _).
  exists r, w', id. split; [exact Hs|]. split; [exact Hid|].
  apply Hkeep. discriminate.
Defined.

(** ** Files that hold other JSON *)

(** X6: when the file holds valid JSON that is not a mapping (a list, a
    text, a number, a boolean or null), every public operation raises
    AttributeError or TypeError, none of which the methods handle, and leaves
    the state as it found it. *)
Theorem other_json_raises w :
  (forall m, contents w <> JObj m) ->
  forall c, exists e,
    perform c w = (Raise e, w) /\ (e = AttributeError \/ e = TypeError).
Proof.
  intros Hc c.
  destruct c as [type data|type id|type id|type|type|type|];
    unfold perform, bind.
  - rewrite save_eq. destruct (contents w); try (by eexists; eauto).
    by destruct (Hc m).
  - unfold load, try_except, bind. rewrite db_read_eq.
    destruct (contents w); try (by eexists; eauto). by destruct (Hc m).
  - unfold delete_doc, try_except, bind. rewrite db_read_eq.
    destruct (contents w); try (by eexists; eauto). by destruct (Hc m).
  - unfold delete_all_docs, list_docs, try_except, bind. rewrite db_read_eq.
    destruct (contents w); try (by eexists; eauto). by destruct (Hc m).
  - unfold delete_type, try_except, bind. rewrite db_read_eq.
    destruct (contents w); try (by eexists; eauto). by destruct (Hc m).
  - unfold list_docs, try_except, bind. rewrite db_read_eq.
    destruct (contents w); try (by eexists; eauto). by destruct (Hc m).
  - unfold list_types, bind. rewrite db_read_eq.
    destruct (contents w); try (by eexists; eauto). by destruct (Hc m).
Qed.

Lemma other_json_raises_witness :
  (forall m, contents list_on_disk <> JObj m) /\
  perform ListTypes list_on_disk = (Raise AttributeError, list_on_disk) /\
  exists e, perform (Load "person" "x") list_on_disk
            = (Raise e, list_on_disk).
Proof.
  assert (forall m, contents list_on_disk <> JObj m) as Hc
    by (intros m; discriminate).
  split; [exact Hc|]. split; [reflexivity|].
  destruct (other_json_raises list_on_disk Hc (Load "person" "x"))
    as (e & He & _).
  exists e. exact He.
Defined.

(** ** Generated ids *)

Lemma hex_digit_is_hex x : is_hex (Sha1.hex_digit (x mod 16)) = true.
Proof.
  assert (x mod 16 < 16)%N as Hlt by (by apply N.mod_lt).
  remember (x mod 16)%N as n eqn:Hn. clear Hn x.
  rewrite <- (N2Nat.id n). assert (N.to_nat n < 16) as Hk by lia.
  remember (N.to_nat n) as k eqn:Hkk. clear Hkk Hlt n.
  do 16 (destruct k as [|k]; [reflexivity|]). lia.
Qed.

Lemma hex8_is_hex x :
  Forall (fun a => is_hex a = true) (list_ascii_of_string (Sha1.hex8 x)).
Proof. unfold Sha1.hex8. repeat constructor; apply hex_digit_is_hex. Qed.

Lemma list_ascii_of_string_app s t :
  list_ascii_of_string (s ++ t)
  = (list_ascii_of_string s ++ list_ascii_of_string t)%list.
Proof.
  induction s as [|a s IH]; [done|].
  change (a :: list_ascii_of_string (s ++ t)
          = a :: (list_ascii_of_string s ++ list_ascii_of_string t)%list).
  by rewrite IH.
Qed.

(** X7: whatever the state, _genrate_id returns a text of 40 characters,
    each one of 0-9 and a-f; it takes one reading of the clock and one draw
    of the random generator and does not touch the file. *)
Theorem generated_id_is_hex40 w :
  exists id w',
    _genrate_id w = (Ok id, w') /\
    String.length id = 40 /\
    Forall (fun a => is_hex a = true) (list_ascii_of_string id) /\
    disk w' = disk w /\ writes w' = writes w /\
    now w' = reading 1 w /\ later w' = tl (later w) /\ dice w' = tl (dice w).
Proof.
  eexists _, _. split; [run_clock; reflexivity|].
  split; [|split; [|done]].
  - destruct (Sha1.sha1 _) as [[[[h0 h1] h2] h3] h4]. reflexivity.
  - destruct (Sha1.sha1 _) as [[[[h0 h1] h2] h3] h4]. unfold Sha1.hexdigest.
    rewrite !list_ascii_of_string_app, !Forall_app.
    repeat split; apply hex8_is_hex.
Qed.

(** ** Unusual ['_id'] values *)

(** X8: a mapping whose ['_id'] is a list or a mapping cannot be filed:
    whatever the file holds, save raises TypeError (or AttributeError when
    the file holds no mapping) and writes nothing. *)
Theorem save_rejects_container_id type data w :
  (exists l, data !! "_id" = Some (JArr l)) \/
  (exists o, data !! "_id" = Some (JObj o)) ->
  exists e w',
    save type data w = (Raise e, w') /\
    (e = TypeError \/ e = AttributeError) /\
    disk w' = disk w /\ writes w' = writes w.
Proof.
  intros Hid. rewrite save_eq.
  destruct (contents w) as [| | | | |m]; try (by eexists _, _; eauto).
  assert (is_Some (data !! "_id")) as Hsome by (by destruct Hid as [[? ->]|[? ->]]).
  rewrite (stamp_with_id data w Hsome).
  rewrite lookup_insert_ne by done.
  assert (forall c k v w0,
            (exists l, k = JArr l) \/ (exists o, k = JObj o) ->
            py_setitem c k v w0 = (Raise TypeError, w0)) as Hset.
  { intros c k v w0 [[l ->]|[o ->]]; by destruct c. }
  rewrite Hset.
  - eexists _, _. split; [done|]. split; [by left|done].
  - destruct Hid as [[l ->]|[o ->]]; [left|right]; by eexists.
Qed.

Lemma save_rejects_container_id_witness :
  let data : gmap string json := <["_id" := JArr [JNum 1]]> ∅ in
  (exists l, data !! "_id" = Some (JArr l)) /\
  exists e w',
    save "person" data shelf = (Raise e, w') /\ disk w' = disk shelf.
Proof.
  intros data.
  assert (exists l, data !! "_id" = Some (JArr l)) as Hid
    by (eexists; reflexivity).
  split; [exact Hid|].
  destruct (save_rejects_container_id "person" data shelf (or_introl Hid))
    as (e & w' & Hs & _ & Hd & _).
  exists e, w'. split; [exact Hs|exact Hd].
Defined.

(** X9: on a stored Database, a mapping whose ['_id'] is an integer is
    filed under the decimal text of that integer when the collection has no
    document under that text: save succeeds and returns the mapping with its
    numeric ['_id'], and load with the decimal text returns it. *)
Theorem save_files_number_as_text type data w D n :
  stored w D -> data !! "_id" = Some (JNum n) ->
  default ∅ (D !! type) !! pretty n = None ->
  exists r w',
    save type data w = (Ok r, w') /\
    r !! "_id" = Some (JNum n) /\
    load type (pretty n) w' = (Ok (JObj r), w').
Proof.
  intros HD Hid Hfree. apply stored_contents in HD.
  rewrite save_eq, HD.
  rewrite (stamp_with_id data w) by (by rewrite Hid).
  pose proof (encode_default D type) as Hd. unfold encode in *. rewrite Hd.
  rewrite lookup_insert_ne, Hid by done. simpl.
  unfold encode_collection at 1. simpl.
  rewrite lookup_fmap, Hfree. simpl.
  eexists _, _. split; [done|].
  split; [by rewrite lookup_insert_ne|].
  eapply load_found; [apply contents_written|apply lookup_insert_eq|].
  apply lookup_insert_eq.
Qed.

Lemma save_files_number_as_text_witness :
  stored morning ∅ /\ numbered !! "_id" = Some (JNum 5) /\
  exists r w',
    save "t" numbered morning = (Ok r, w') /\
    r !! "_id" = Some (JNum 5) /\
    load "t" "5" w' = (Ok (JObj r), w').
Proof.
  assert (stored morning ∅) as HD by reflexivity.
  split; [exact HD|]. split; [reflexivity|].
  exact (save_files_number_as_text "t" numbered morning ∅ 5 HD eq_refl eq_refl).
Defined.

(** ** Saving onto a file that cannot be read *)

(** X10: when the file does not exist or does not hold JSON, a save (of a
    mapping with no ['_id'] or a text ['_id']) succeeds and leaves a Database
    that holds the saved document and nothing else: whatever the file held
    is gone. *)
Theorem save_replaces_unreadable_file type data w :
  disk w = Absent \/ disk w = Malformed -> text_id data ->
  exists r w' id,
    save type data w = (Ok r, w') /\ r !! "_id" = Some (JStr id) /\
    stored w' {[type := {[id := r]}]} /\
    list_types w' = (Ok [type], w') /\
    list_docs type w' = (Ok [id], w').
Proof.
  intros Hd Ht.
  assert (stored w ∅) as HD.
  { apply stored_contents. unfold contents. by destruct Hd as [-> | ->]. }
  destruct (save_stored type data w ∅ HD Ht) as (r & w1 & id & _ & Hid & Hs).
  rewrite lookup_empty in Hs. simpl in Hs. rewrite !insert_empty in Hs.
  assert (stored (written (encode {[type := {[id := r]}]}) w1)
            {[type := {[id := r]}]}) as HD' by apply stored_written.
  exists r, (written (encode {[type := {[id := r]}]}) w1), id.
  split; [exact Hs|]. split; [done|].
  split; [exact HD'|]. split.
  - rewrite (list_types_stored _ _ HD').
    by rewrite dom_singleton_L, elements_singleton.
  - rewrite (list_docs_stored _ _ HD'), lookup_singleton_eq.
    by rewrite dom_singleton_L, elements_singleton.
Qed.

Lemma save_replaces_unreadable_file_witness :
  (disk morning = Absent \/ disk morning = Malformed) /\ text_id person /\
  exists r w' id,
    save "person" person morning = (Ok r, w') /\
    list_types w' = (Ok ["person"], w') /\
    list_docs "person" w' = (Ok [id], w').
Proof.
  assert (disk morning = Absent \/ disk morning = Malformed) as Hd
    by (left; reflexivity).
  split; [exact Hd|]. split; [exact I|].
  destruct (save_replaces_unreadable_file "person" person morning Hd I)
    as (r & w' & id & Hs & _ & _ & Ht & Hl).
  exists r, w', id. split; [exact Hs|]. split; [exact Ht|exact Hl].
Defined.

(** ** Saving and deleting in sequence *)

Lemma save_text_id_data type data w r w' id :
  save type data w = (Ok r, w') -> r !! "_id" = Some (JStr id) -> text_id data.
Proof.
  intros Hs Hid. apply save_inv in Hs as (_ & w1 & _ & _ & Hst & _).
  unfold text_id. destruct (data !! "_id") as [v|] eqn:Hv; [|done].
  rewrite stamp_with_id in Hst by (by rewrite Hv).
  apply pair_equal_spec in Hst as [Hr _]. apply Ok_inj in Hr. subst r.
  rewrite lookup_insert_ne, Hv in Hid by done. by injection Hid as ->.
Qed.

(** X11: on a stored Database, when save has filed a document under a text
    id that the collection did not have, deleting that id succeeds and
    brings every load back to what it returned before the save; the type is
    listed afterwards even if it was not before, with the collection it had,
    or an empty one. *)
Theorem save_then_delete type data w D r w1 id :
  stored w D -> save type data w = (Ok r, w1) ->
  r !! "_id" = Some (JStr id) ->
  default ∅ (D !! type) !! id = None ->
  exists w2,
    delete_doc type id w1 = (Ok tt, w2) /\
    stored w2 (<[type := default ∅ (D !! type)]> D) /\
    (forall type' id', fst (load type' id' w2) = fst (load type' id' w)) /\
    exists types, list_types w2 = (Ok types, w2) /\ type ∈ types.
Proof.
  intros HD Hsave Hid Hfree.
  pose proof (save_text_id_data _ _ _ _ _ _ Hsave Hid) as Ht.
  destruct (save_stored type data w D HD Ht) as (r' & w0 & id' & _ & Hid' & Hs).
  rewrite Hsave in Hs. apply pair_equal_spec in Hs as [Hr Hw].
  apply Ok_inj in Hr. subst r'. rewrite Hid in Hid'. injection Hid' as <-.
  set (c := default ∅ (D !! type)) in *.
  set (D1 := <[type := <[id := r]> c]> D) in *.
  set (D2 := <[type := c]> D).
  assert (stored w1 D1) as HD1 by (rewrite Hw; apply stored_written).
  assert (stored (written (encode D2) w1) D2) as HD2 by apply stored_written.
  exists (written (encode D2) w1). split.
  { rewrite (delete_doc_stored _ _ HD1). unfold D1.
    rewrite lookup_insert_eq, lookup_insert_eq, insert_insert_eq.
    by rewrite delete_insert_id. }
  split; [exact HD2|]. split.
  - intros type' id'. rewrite (load_stored _ _ HD2), (load_stored _ _ HD).
    unfold D2. destruct (decide (type' = type)) as [->|Hne].
    + rewrite lookup_insert_eq. simpl. unfold c.
      destruct (D !! type) as [c0|]; simpl;
        [by destruct (c0 !! id')|by rewrite lookup_empty].
    + rewrite lookup_insert_ne by done.
      by destruct (D !! type' ≫= lookup id').
  - exists (elements (dom D2)). split; [by apply list_types_stored|].
    apply elem_of_elements, elem_of_dom. unfold D2.
    rewrite lookup_insert_eq. by eexists.
Qed.

Lemma save_then_delete_witness :
  stored morning ∅ /\
  exists r w1 id w2,
    save "person" ∅ morning = (Ok r, w1) /\
    r !! "_id" = Some (JStr id) /\
    delete_doc "person" id w1 = (Ok tt, w2) /\
    fst (load "person" id w2) = fst (load "person" id morning).
Proof.
  assert (stored morning ∅) as HD by reflexivity.
  split; [exact HD|].
  set (r := value_of ∅ (fst (save "person" ∅ morning))).
  set (w1 := snd (save "person" ∅ morning)).
  set (id := value_of "" (fst (_genrate_id morning))).
  assert (save "person" ∅ morning = (Ok r, w1)) as Hs
    by (vm_compute; reflexivity).
  assert (r !! "_id" = Some (JStr id)) as Hid by (vm_compute; reflexivity).
  destruct (save_then_delete "person" ∅ morning ∅ r w1 id HD Hs Hid eq_refl)
    as (w2 & Hd & _ & Hl & _).
  exists r, w1, id, w2. split; [exact Hs|]. split; [exact Hid|].
  split; [exact Hd|apply Hl].
Defined.

(** ** Generated ids are not checked against the collection *)

Lemma stamp_generated_id data w r w1 :
  data !! "_id" = None -> stamp data w = (Ok r, w1) ->
  r !! "_id" = Some (JStr (value_of "" (fst (_genrate_id w)))).
Proof.
  intros Hn. unfold stamp.
  destruct (decide _) as [Hin|_].
  { apply id_in_keys in Hin. rewrite Hn in Hin. by destruct Hin. }
  run_clock. intros Hs. apply pair_equal_spec in Hs as [Hr _].
  apply Ok_inj in Hr. subst r.
  rewrite !lookup_insert_ne by done. by rewrite lookup_insert_eq.
Qed.

(** X12: save does not check a generated id against the ids in use: on a
    stored Database, when the id generated for a mapping without ['_id'] is
    the id of a document of that type, save succeeds, the new document takes
    the place of the old one, and the ids listed for the type are the same as
    before. *)
Theorem save_overwrites_on_collision type data w D c old :
  stored w D -> data !! "_id" = None -> D !! type = Some c ->
  c !! value_of "" (fst (_genrate_id w)) = Some old ->
  exists r w',
    save type data w = (Ok r, w') /\
    r !! "_id" = Some (JStr (value_of "" (fst (_genrate_id w)))) /\
    load type (value_of "" (fst (_genrate_id w))) w' = (Ok (JObj r), w') /\
    fst (list_docs type w') = fst (list_docs type w).
Proof.
  intros HD Hn Hc Hold.
  assert (text_id data) as Ht by (unfold text_id; by rewrite Hn).
  destruct (save_stored type data w D HD Ht) as (r & w1 & id & Hst & Hid & Hs).
  pose proof (stamp_generated_id _ _ _ _ Hn Hst) as Hgen.
  set (g := value_of "" (fst (_genrate_id w))) in *.
  assert (id = g) as -> by congruence. clear Hgen.
  rewrite Hc in Hs. change (default ∅ (Some c)) with c in Hs.
  set (D' := <[type := <[g := r]> c]> D) in *.
  assert (stored (written (encode D') w1) D') as HD' by apply stored_written.
  exists r, (written (encode D') w1). split; [exact Hs|]. split; [exact Hid|].
  split.
  - rewrite (load_stored _ _ HD'). unfold D'.
    rewrite lookup_insert_eq. simpl. by rewrite lookup_insert_eq.
  - rewrite (list_docs_stored _ _ HD'), (list_docs_stored _ _ HD), Hc.
    unfold D'. rewrite lookup_insert_eq. simpl.
    by rewrite dom_insert_lookup_L.
Qed.

Lemma save_overwrites_on_collision_witness :
  exists D c old r w',
    stored rewound D /\ D !! "person" = Some c /\
    c !! value_of "" (fst (_genrate_id rewound)) = Some old /\
    old !! "name" = Some (JStr "Craig") /\
    save "person" ∅ rewound = (Ok r, w') /\
    load "person" (value_of "" (fst (_genrate_id rewound))) w'
    = (Ok (JObj r), w') /\
    r !! "name" = None.
Proof.
  set (g := value_of "" (fst (_genrate_id morning))).
  set (old := value_of ∅ (fst (save "person" person morning))).
  set (c := <[g := old]> (∅ : TypeCollection)).
  set (D := <["person" := c]> (∅ : Database)).
  assert (stored rewound D) as HD by (vm_compute; reflexivity).
  assert (D !! "person" = Some c) as Hc by apply lookup_insert_eq.
  assert (c !! value_of "" (fst (_genrate_id rewound)) = Some old) as Hold
    by apply lookup_insert_eq.
  assert (old !! "name" = Some (JStr "Craig")) as Hname
    by (vm_compute; reflexivity).
  destruct (save_overwrites_on_collision "person" ∅ rewound D c old
              HD (lookup_empty _) Hc Hold) as (r & w' & Hs & Hid & Hl & _).
  exists D, c, old, r, w'. split; [exact HD|]. split; [exact Hc|].
  split; [exact Hold|]. split; [exact Hname|]. split; [exact Hs|].
  split; [exact Hl|].
  apply save_inv in Hs as (_ & w1 & _ & _ & Hst & _).
  destruct (stamp_without_id ∅ rewound (lookup_empty _)) as (id & w2 & Hst' & Hr & _).
  rewrite Hst in Hst'. apply pair_equal_spec in Hst' as [Hr' _].
  apply Ok_inj in Hr'. subst r. by rewrite !lookup_insert_ne.
Defined.

(** ** A call that raises has written nothing *)








